(** * Immutable storage over entity storage

    A shallow embedding of [EntityStorageImmutableStorageConnector]
    (packages/immutable-storage-connector-entity-storage): the [store], [get]
    and [remove] operations, the helpers of [@gtsc/core] they call
    ([Guards], [Is], [Urn], [Converter], [RandomHelper] and the error
    classes) and the entity storage connector they persist to.

    The helpers of [@gtsc/core] and the entity storage connector are
    imported by the connector, not part of its repository; each is embedded
    under the name it has there, with the behaviour the library gives it.

    Asynchronous methods are functions in a state-and-exception monad over
    [World], the part of the environment the connector can observe: the
    entity storage, the trace of calls made to it, and the random source. *)

From Stdlib Require Import Arith Lia List Ascii String.
From Stdlib.Strings Require Byte.
From stdpp Require Import base option list gmap strings.

Abbreviation byte := Init.Byte.byte.

(** ** Characters and strings *)

Definition ascii_in (lo hi c : ascii) : bool :=
  (nat_of_ascii lo <=? nat_of_ascii c) && (nat_of_ascii c <=? nat_of_ascii hi).

Definition is_digit (c : ascii) : bool := ascii_in "0" "9" c.
Definition is_lower (c : ascii) : bool := ascii_in "a" "z" c.
Definition is_upper (c : ascii) : bool := ascii_in "A" "Z" c.

(** A lower-case hexadecimal digit. *)
Definition is_hex (c : ascii) : bool := is_digit c || ascii_in "a" "f" c.

Fixpoint string_forallb (p : ascii -> bool) (s : string) : bool :=
  match s with
  | EmptyString => true
  | String c s' => p c && string_forallb p s'
  end.

Fixpoint string_existsb (p : ascii -> bool) (s : string) : bool :=
  match s with
  | EmptyString => false
  | String c s' => p c || string_existsb p s'
  end.

(** No character of [s] is [sep]. *)
Definition free_of (sep : ascii) (s : string) : bool :=
  string_forallb (fun c => negb (Ascii.eqb c sep)) s.

(** JavaScript's [s.split(sep)] for a one-character separator: the result is
    never empty, and the empty string splits into one empty part. *)
Fixpoint split (sep : ascii) (s : string) : list string :=
  match s with
  | EmptyString => [EmptyString]
  | String c s' =>
      if Ascii.eqb c sep then EmptyString :: split sep s'
      else match split sep s' with
           | h :: t => String c h :: t
           | [] => [String c EmptyString]
           end
  end.

(** JavaScript's [parts.join(sep)]. *)
Definition join (sep : string) (parts : list string) : string :=
  String.concat sep parts.

(** JavaScript's [s.startsWith(p)]. *)
Definition startsWith (p s : string) : bool := String.prefix p s.

(** JavaScript's [s.substring(n)]. *)
Fixpoint substring_from (n : nat) (s : string) : string :=
  match n, s with
  | O, _ => s
  | S n', String _ s' => substring_from n' s'
  | S _, EmptyString => EmptyString
  end.

(** The text before the first [sep] and the text after it, when [s] has one. *)
Fixpoint cut (sep : ascii) (s : string) : option (string * string) :=
  match s with
  | EmptyString => None
  | String c s' =>
      if Ascii.eqb c sep then Some (EmptyString, s')
      else match cut sep s' with
           | Some (h, t) => Some (String c h, t)
           | None => None
           end
  end.

(** ** [Converter] of @gtsc/core *)

Module Converter.

Definition hexAlphabet : string := "0123456789abcdef".

Definition hexDigit (n : nat) : ascii :=
  match String.get n hexAlphabet with
  | Some c => c
  | None => "0"%char
  end.

(** [Converter.bytesToHex]: two lower-case hexadecimal digits per byte, the
    high nibble first. *)
Fixpoint bytesToHex (bytes : list byte) : string :=
  match bytes with
  | [] => EmptyString
  | b :: rest =>
      let n := Byte.to_nat b in
      String (hexDigit (n / 16)) (String (hexDigit (n mod 16)) (bytesToHex rest))
  end.

Definition base64Alphabet : string :=
  "ABCDEFGHIJKLMNOPQRSTUVWXYZabcdefghijklmnopqrstuvwxyz0123456789+/".

Definition base64Char (n : nat) : ascii :=
  match String.get n base64Alphabet with
  | Some c => c
  | None => "A"%char
  end.

(** The reverse lookup table: the position of a character in the alphabet;
    a character outside it reads as 0. *)
Definition base64Value (c : ascii) : nat :=
  let k := nat_of_ascii c in
  if is_upper c then k - 65
  else if is_lower c then k - 97 + 26
  else if is_digit c then k - 48 + 52
  else if Ascii.eqb c "+" then 62
  else if Ascii.eqb c "/" then 63
  else 0.

Definition byteOfNat (n : nat) : byte :=
  match Byte.of_nat (n mod 256) with
  | Some b => b
  | None => Byte.x00
  end.

(** [Converter.bytesToBase64]: RFC 4648 base64 with [=] padding.  Three
    bytes give four characters; a tail of one or two bytes is padded. *)
Fixpoint bytesToBase64 (bytes : list byte) : string :=
  match bytes with
  | [] => EmptyString
  | [a] =>
      let x := Byte.to_nat a in
      String (base64Char (x / 4))
        (String (base64Char (x mod 4 * 16)) "==")
  | [a; b] =>
      let x := Byte.to_nat a in
      let y := Byte.to_nat b in
      String (base64Char (x / 4))
        (String (base64Char (x mod 4 * 16 + y / 16))
           (String (base64Char (y mod 16 * 4)) "="))
  | a :: b :: c :: rest =>
      let x := Byte.to_nat a in
      let y := Byte.to_nat b in
      let z := Byte.to_nat c in
      String (base64Char (x / 4))
        (String (base64Char (x mod 4 * 16 + y / 16))
           (String (base64Char (y mod 16 * 4 + z / 64))
              (String (base64Char (z mod 64)) (bytesToBase64 rest))))
  end.

(** [Converter.base64ToBytes]: the characters are read four at a time; a
    group ending in [==] gives one byte, in [=] two, any other three.  A
    text whose length is not a multiple of four is refused ([None]: the
    library throws). *)
Fixpoint base64ToBytes (base64 : string) : option (list byte) :=
  match base64 with
  | EmptyString => Some []
  | String c0 (String c1 (String c2 (String c3 rest))) =>
      let s0 := base64Value c0 in
      let s1 := base64Value c1 in
      let s2 := base64Value c2 in
      let s3 := base64Value c3 in
      let b0 := byteOfNat (s0 * 4 + s1 / 16) in
      let b1 := byteOfNat (s1 mod 16 * 16 + s2 / 4) in
      let b2 := byteOfNat (s2 mod 4 * 64 + s3) in
      if Ascii.eqb c2 "=" then
        match rest with EmptyString => Some [b0] | _ => None end
      else if Ascii.eqb c3 "=" then
        match rest with EmptyString => Some [b0; b1] | _ => None end
      else
        match base64ToBytes rest with
        | Some tail => Some (b0 :: b1 :: b2 :: tail)
        | None => None
        end
  | _ => None
  end.

End Converter.

(** ** Errors of @gtsc/core

    The error classes the connector throws or lets through.  A
    [GeneralError] carries the source class, the message key, the
    properties and the error it wraps ([inner]); [ThrownError] stands for
    anything a collaborator throws on its own (the entity storage
    connector, the base64 decoder). *)

#[warnings="-register-all"]
Inductive BaseError : Type :=
| GuardError (source message property : string)
| GeneralError (source message : string)
    (properties : list (string * string)) (inner : option BaseError)
| NotFoundError (source message : string)
| ThrownError (source message : string).

Inductive Result (A : Type) : Type :=
| Ok (value : A)
| Err (error : BaseError).

Arguments Ok {A} value.
Arguments Err {A} error.

Definition andThen {A B : Type} (r : Result A) (k : A -> Result B) : Result B :=
  match r with
  | Ok a => k a
  | Err e => Err e
  end.

(** ** [Is] and [Guards] of @gtsc/core *)

Module Is.

(** [Is.stringValue]: a string of length above zero. *)
Definition stringValue (value : string) : bool :=
  negb (String.eqb value EmptyString).

(** [Is.empty]: [undefined] or [null]; the embedding's [None]. *)
Definition empty {A : Type} (value : option A) : bool :=
  match value with
  | None => true
  | Some _ => false
  end.

End Is.

Module Guards.

(** [Guards.stringValue(source, property, value)]: throws a [GuardError]
    unless [value] is a non-empty string. *)
Definition stringValue (source property value : string) : Result unit :=
  if Is.stringValue value then Ok tt
  else Err (GuardError source "guard.stringEmpty" property).

(** [Guards.uint8Array(source, property, value)]: throws unless
    [value instanceof Uint8Array].  It looks at the type only, never at the
    length, and a [list byte] is always a [Uint8Array]. *)
Definition uint8Array (source property : string) (value : list byte) : Result unit :=
  Ok tt.

End Guards.

(** ** [Urn] of @gtsc/core *)

Module Urn.

(** The parts of the urn: the namespace identifier, then the namespace
    specific string split at its colons. *)
Record t : Type := mk { _urnParts : list string }.

Definition CLASS_NAME : string := "Urn".

(** [new Urn(namespaceIdentifier, namespaceSpecific)] once its guards
    have passed. *)
Definition make (namespaceIdentifier namespaceSpecific : string) : t :=
  mk (namespaceIdentifier :: split ":" namespaceSpecific).

(** [new Urn(namespaceIdentifier, namespaceSpecific)]. *)
Definition new (namespaceIdentifier namespaceSpecific : string) : Result t :=
  andThen (Guards.stringValue CLASS_NAME "namespaceIdentifier" namespaceIdentifier) (fun _ =>
  andThen (Guards.stringValue CLASS_NAME "namespaceSpecific" namespaceSpecific) (fun _ =>
  Ok (make namespaceIdentifier namespaceSpecific))).

(** The character classes of RFC 2141, in lower case: the namespace
    identifier is a letter or digit followed by at most 31 letters, digits
    and hyphens; the namespace specific string is one or more letters,
    digits and the characters listed. *)
Definition nidFirst (c : ascii) : bool := is_digit c || is_lower c.

Definition nidChar (c : ascii) : bool :=
  is_digit c || is_lower c || Ascii.eqb c "-".

Definition nssOther : string := "!#$%'()*+,./:;=?@_-".

Definition nssChar (c : ascii) : bool :=
  is_digit c || is_lower c || string_existsb (Ascii.eqb c) nssOther.

Definition matchNid (s : string) : bool :=
  match s with
  | EmptyString => false
  | String c rest =>
      nidFirst c && string_forallb nidChar rest && (String.length rest <=? 31)
  end.

Definition matchNss (s : string) : bool :=
  Is.stringValue s && string_forallb nssChar s.

(** The pattern [NID ":" NSS] over the whole of [s].  No character of the
    namespace identifier is a colon, so the identifier is the text before
    the first colon. *)
Definition matchUrn (s : string) : option (string * string) :=
  match cut ":" s with
  | Some (nid, nss) => if matchNid nid && matchNss nss then Some (nid, nss) else None
  | None => None
  end.

(** The pattern of [tryParseExact], with its optional [urn:] prefix: the
    prefix is dropped when the rest still matches, and kept otherwise. *)
Definition exec (urn : string) : option (string * string) :=
  match (if startsWith "urn:" urn then matchUrn (substring_from 4 urn) else None) with
  | Some groups => Some groups
  | None => matchUrn urn
  end.

(** [Urn.tryParseExact(urn)]: the urn, or [undefined]. *)
Definition tryParseExact (urn : string) : option t :=
  if Is.stringValue urn then
    match exec urn with
    | Some (nid, nss) => Some (make nid nss)
    | None => None
    end
  else None.

(** [Urn.validate(property, value)]. *)
Definition validate (value : string) : bool :=
  Is.stringValue value && negb (Is.empty (tryParseExact value)).

(** [Urn.guard(source, property, value)]: throws a [GuardError] unless
    [value] is a non-empty string that parses as a urn. *)
Definition guard (source property value : string) : Result unit :=
  andThen (Guards.stringValue source property value) (fun _ =>
  if validate value then Ok tt
  else Err (GuardError source "guard.urn" property)).

(** [Urn.fromValidString(urn)]: guards, then parses. *)
Definition fromValidString (urn : string) : Result t :=
  andThen (guard CLASS_NAME "urn" urn) (fun _ =>
  match tryParseExact urn with
  | Some parsed => Ok parsed
  | None => Err (GuardError CLASS_NAME "guard.urn" "urn")
  end).

(** [namespaceMethod()]: the second part, or the empty string. *)
Definition namespaceMethod (u : t) : string :=
  match _urnParts u with
  | _ :: method :: _ => method
  | _ => EmptyString
  end.

(** [namespaceSpecific(startIndex)]: the parts after the identifier from
    [startIndex] on, joined by colons; empty when the urn has one part. *)
Definition namespaceSpecific (startIndex : nat) (u : t) : string :=
  if 1 <? length (_urnParts u)
  then join ":" (drop (startIndex + 1) (_urnParts u))
  else EmptyString.

(** [toString()], with the [urn:] prefix omitted (the default). *)
Definition toString (u : t) : string := join ":" (_urnParts u).

End Urn.

(** ** The persisted entity and the world around the connector *)

Module ImmutableItem.

(** Modelled from the spec: the entity class [ImmutableItem]
    (entities/immutableItem) is not among the sources; its fields are those
    of the persisted record layout (id, controller, data as base64), as
    [store] fills them in. *)
Record t : Type := mk { id : string; controller : string; data : string }.

End ImmutableItem.

(** A call received by the entity storage connector. *)
Inductive StorageCall : Type :=
| SetCall (entity : ImmutableItem.t)
| GetCall (id : string)
| RemoveCall (id : string).

(** What the connector runs against: the entities of the
    ["immutable-item"] entity storage by primary key, the calls that storage
    has received (the latest first), whether it is failing ([outage]: the
    message every call is rejected with), and the random source with the
    number of bytes drawn from it so far. *)
Record World : Type := mkWorld {
  entities : gmap string ImmutableItem.t;
  calls : list StorageCall;
  outage : option string;
  entropy : nat -> byte;
  drawn : nat
}.

Definition withEntities (f : gmap string ImmutableItem.t -> gmap string ImmutableItem.t)
    (w : World) : World :=
  mkWorld (f (entities w)) (calls w) (outage w) (entropy w) (drawn w).

Definition withCall (c : StorageCall) (w : World) : World :=
  mkWorld (entities w) (c :: calls w) (outage w) (entropy w) (drawn w).

Definition withDrawn (n : nat) (w : World) : World :=
  mkWorld (entities w) (calls w) (outage w) (entropy w) (drawn w + n).

(** ** The monad of asynchronous methods: state and exceptions *)

Definition M (A : Type) : Type := World -> Result A * World.

Definition ret {A : Type} (a : A) : M A := fun w => (Ok a, w).

Definition throw {A : Type} (e : BaseError) : M A := fun w => (Err e, w).

Definition lift {A : Type} (r : Result A) : M A := fun w => (r, w).

Definition bind {A B : Type} (m : M A) (k : A -> M B) : M B :=
  fun w =>
    match m w with
    | (Ok a, w') => k a w'
    | (Err e, w') => (Err e, w')
    end.

(** [try { body } catch (error) { handler }]: the handler runs in the world
    the body left behind. *)
Definition tryCatch {A : Type} (body : M A) (handler : BaseError -> M A) : M A :=
  fun w =>
    match body w with
    | (Ok a, w') => (Ok a, w')
    | (Err e, w') => handler e w'
    end.

Notation "x <- m ;; k" := (bind m (fun x => k))
  (at level 63, m at next level, right associativity).
Notation "m ;;; k" := (bind m (fun _ => k))
  (at level 63, right associativity).

Module RandomHelper.

(** [RandomHelper.generate(length)]: the next [length] bytes of the random
    source. *)
Definition generate (length : nat) : M (list byte) :=
  fun w => (Ok (map (entropy w) (seq (drawn w) length)), withDrawn length w).

End RandomHelper.

(** ** The entity storage connector ([IEntityStorageConnector<ImmutableItem>]) *)

Module EntityStorage.

Definition CLASS_NAME : string := "EntityStorageConnector".

(** Every call is recorded; during an outage it is rejected. *)
Definition receive (c : StorageCall) : M unit :=
  fun w =>
    match outage w with
    | Some message => (Err (ThrownError CLASS_NAME message), withCall c w)
    | None => (Ok tt, withCall c w)
    end.

(** [set(entity)]: stores the entity under its primary key, replacing an
    entity already there. *)
Definition set (entity : ImmutableItem.t) : M unit :=
  receive (SetCall entity) ;;;
  fun w => (Ok tt, withEntities (insert (ImmutableItem.id entity) entity) w).

(** [get(id)]: the entity with that primary key, or [undefined]. *)
Definition get (id : string) : M (option ImmutableItem.t) :=
  receive (GetCall id) ;;;
  fun w => (Ok (entities w !! id), w).

(** [remove(id)]: deletes the entity with that primary key. *)
Definition remove (id : string) : M unit :=
  receive (RemoveCall id) ;;;
  fun w => (Ok tt, withEntities (delete id) w).

End EntityStorage.

(** ** The connector *)

Module EntityStorageImmutableStorageConnector.

(** [NAMESPACE]: the namespace supported by the connector. *)
Definition NAMESPACE : string := "entity-storage".

(** [CLASS_NAME = nameof<EntityStorageImmutableStorageConnector>()]. *)
Definition CLASS_NAME : string := "EntityStorageImmutableStorageConnector".

(** [Converter.base64ToBytes] as a step of a method: a refused text is an
    error thrown by the converter. *)
Definition base64ToBytes (base64 : string) : M (list byte) :=
  match Converter.base64ToBytes base64 with
  | Some bytes => ret bytes
  | None => throw (ThrownError "Converter" "base64ToBytes")
  end.

(** [store(controller, data)]: the id of the stored item in urn format. *)
Definition store (controller : string) (data : list byte) : M string :=
  lift (Guards.stringValue CLASS_NAME "controller" controller) ;;;
  lift (Guards.uint8Array CLASS_NAME "data" data) ;;;
  tryCatch
    (bytes <- RandomHelper.generate 32 ;;
     let immutableItemId := Converter.bytesToHex bytes in
     let immutableItem :=
       ImmutableItem.mk immutableItemId controller (Converter.bytesToBase64 data) in
     EntityStorage.set immutableItem ;;;
     urn <- lift (Urn.new NAMESPACE immutableItemId) ;;
     ret ("immutable:" +:+ Urn.toString urn))
    (fun error => throw (GeneralError CLASS_NAME "storingFailed" [] (Some error))).

(** [get(id)]: the data of the item. *)
Definition get (id : string) : M (list byte) :=
  lift (Urn.guard CLASS_NAME "id" id) ;;;
  urnParsed <- lift (Urn.fromValidString id) ;;
  (if negb (String.eqb (Urn.namespaceMethod urnParsed) NAMESPACE) then
     throw (GeneralError CLASS_NAME "namespaceMismatch"
              [("namespace", NAMESPACE); ("id", id)] None)
   else ret tt) ;;;
  tryCatch
    (let immutableItemId := Urn.namespaceSpecific 1 urnParsed in
     immutableItem <- EntityStorage.get immutableItemId ;;
     match immutableItem with
     | None => throw (NotFoundError CLASS_NAME "immutableStorageNotFound")
     | Some item => base64ToBytes (ImmutableItem.data item)
     end)
    (fun error => throw (GeneralError CLASS_NAME "gettingFailed" [] (Some error))).

(** [remove(controller, id)]. *)
Definition remove (controller : string) (id : string) : M unit :=
  lift (Guards.stringValue CLASS_NAME "controller" controller) ;;;
  lift (Urn.guard CLASS_NAME "id" id) ;;;
  urnParsed <- lift (Urn.fromValidString id) ;;
  (if negb (String.eqb (Urn.namespaceMethod urnParsed) NAMESPACE) then
     throw (GeneralError CLASS_NAME "namespaceMismatch"
              [("namespace", NAMESPACE); ("id", id)] None)
   else ret tt) ;;;
  tryCatch
    (let immutableItemId := Urn.namespaceSpecific 1 urnParsed in
     immutableItem <- EntityStorage.get immutableItemId ;;
     match immutableItem with
     | None => throw (NotFoundError CLASS_NAME "immutableStorageNotFound")
     | Some item =>
         if negb (String.eqb (ImmutableItem.controller item) controller) then
           throw (GeneralError CLASS_NAME "notControllerRemove" [] None)
         else EntityStorage.remove immutableItemId
     end)
    (fun error => throw (GeneralError CLASS_NAME "removingFailed" [] (Some error))).

End EntityStorageImmutableStorageConnector.

Module Connector := EntityStorageImmutableStorageConnector.

(** ** The identifier scheme and the error taxonomy, in the specification's terms *)

Module Identifier.

(** The canonical text of a structured identifier. *)
Definition format (namespace method rawId : string) : string :=
  namespace +:+ ":" +:+ method +:+ ":" +:+ rawId.

(** What [get] and [remove] read off an identifier before they look
    anything up: the guard, [Urn.fromValidString], then [namespaceMethod()]
    and [namespaceSpecific(1)]. *)
Definition parse (input : string) : option (string * string) :=
  match andThen (Urn.guard Connector.CLASS_NAME "id" input)
          (fun _ => Urn.fromValidString input) with
  | Ok urnParsed => Some (Urn.namespaceMethod urnParsed, Urn.namespaceSpecific 1 urnParsed)
  | Err _ => None
  end.

(** A segment: not empty, made of the characters a urn allows, no colon. *)
Definition segment (s : string) : bool :=
  Is.stringValue s && string_forallb Urn.nssChar s && free_of ":" s.

(** The triples the scheme formats: a namespace identifier other than the
    prefix word [urn], and a method and a raw id that are segments. *)
Definition validTriple (namespace method rawId : string) : bool :=
  Urn.matchNid namespace && negb (String.eqb namespace "urn")
  && segment method && segment rawId.

End Identifier.

Module ErrorKind.

(** The kinds of failure the specification names ([NotFound] for its
    [NotFoundError], and so on), and [Other] for the guard errors on
    arguments and anything else. *)
Inductive t : Type :=
| MalformedIdentifier
| NamespaceMismatch
| NotFound
| NotAuthorized
| StorageOperation (tag : string)
| Other.

(** The kind a caller sees: the class and message key of the error that
    reaches it, not of an error wrapped inside. *)
Definition classify (e : BaseError) : t :=
  match e with
  | GuardError _ message _ =>
      if String.eqb message "guard.urn" then MalformedIdentifier else Other
  | NotFoundError _ _ => NotFound
  | GeneralError _ message _ _ =>
      if String.eqb message "namespaceMismatch" then NamespaceMismatch
      else if String.eqb message "notControllerRemove" then NotAuthorized
      else if String.eqb message "storingFailed" then StorageOperation message
      else if String.eqb message "gettingFailed" then StorageOperation message
      else if String.eqb message "removingFailed" then StorageOperation message
      else Other
  | ThrownError _ _ => Other
  end.

End ErrorKind.

(** ** The three operations as transitions of the world *)

Inductive Operation : Type :=
| Store (controller : string) (data : list byte)
| Get (id : string)
| Remove (controller id : string).

(** The world an operation leaves behind, whether it succeeds or fails. *)
Definition perform (op : Operation) (w : World) : World :=
  match op with
  | Store controller data => snd (Connector.store controller data w)
  | Get id => snd (Connector.get id w)
  | Remove controller id => snd (Connector.remove controller id w)
  end.

(** ** Sample data *)

(** A working storage with no entity, and a fixed random source. *)
Definition sampleWorld : World :=
  mkWorld ∅ [] None (fun n => Converter.byteOfNat (7 * n + 3)) 0.

Definition samplePayload : list byte := [Byte.x01; Byte.x02].

(** The identifier the first [store] on [sampleWorld] returns. *)
Definition sampleRawId : string :=
  "030a11181f262d343b424950575e656c737a81888f969da4abb2b9c0c7ced5dc".

Definition sampleId : string := "immutable:entity-storage:" +:+ sampleRawId.

(** [sampleWorld] after ["alice"] has stored [samplePayload]. *)
Definition storedWorld : World :=
  snd (Connector.store "alice" samplePayload sampleWorld).

(** ** Histories and the shape of stored items *)

(** The bytes the next [RandomHelper.generate(32)] returns. *)
Definition nextRandom (w : World) : list byte :=
  map (entropy w) (seq (drawn w) 32).

(** The item [store] builds in [w] for a controller and its data. *)
Definition writtenItem (controller : string) (data : list byte) (w : World)
    : ImmutableItem.t :=
  ImmutableItem.mk (Converter.bytesToHex (nextRandom w)) controller
    (Converter.bytesToBase64 data).

(** The world after a sequence of operations, the first of the list first. *)
Definition run (ops : list Operation) (w : World) : World :=
  fold_left (fun w' op => perform op w') ops w.

(** An item as [store] writes it under key [k]: its id is the key, the key
    is 64 hexadecimal digits, the controller is named and the data is the
    base64 text of some payload. *)
Definition writtenByStore (k : string) (item : ImmutableItem.t) : Prop :=
  ImmutableItem.id item = k
  /\ String.length k = 64
  /\ string_forallb is_hex k = true
  /\ ImmutableItem.controller item <> EmptyString
  /\ exists payload, ImmutableItem.data item = Converter.bytesToBase64 payload.

(** Every entity of the storage is as [store] writes it. *)
Definition wellFormed (w : World) : Prop :=
  forall k item, entities w !! k = Some item -> writtenByStore k item.

(** ** The REST client ([ImmutableStorageClient])

    The client guards its arguments and hands one request to
    [BaseRestClient.fetch]; whatever the endpoint answers is returned as
    it is.  The transport is the part of the world the client sees: the
    requests sent so far (the latest first) and the answer of the endpoint
    to a request, a response body or the error [fetch] throws. *)

Module ImmutableStorageClient.

Inductive HttpMethod : Type := GET | POST | DELETE.

(** The [body] of a request: [{ data }] for [store], the [options] of [get]. *)
Inductive RequestBody : Type :=
| StoreRequest (data : string)
| GetOptions (includeData : bool).

(** The arguments of a call of [fetch]: the route, the method, the path
    parameters and the body. *)
Record Request : Type := mkRequest {
  route : string;
  method : HttpMethod;
  pathParams : list (string * string);
  body : option RequestBody
}.

Section Client.

(** The type of response bodies; the client casts them and looks at
    nothing inside. *)
Context {Body : Type}.

Record Transport : Type := mkTransport {
  sent : list Request;
  respond : Request -> Result Body
}.

Definition C (A : Type) : Type := Transport -> Result A * Transport.

(** [CLASS_NAME = nameof<ImmutableStorageClient>()]. *)
Definition CLASS_NAME : string := "ImmutableStorageClient".

(** [this.fetch(route, method, { pathParams, body })]. *)
Definition fetch (request : Request) : C Body :=
  fun t => (respond t request, mkTransport (request :: sent t) (respond t)).

Definition guarded {A : Type} (r : Result unit) (k : C A) : C A :=
  fun t =>
    match r with
    | Ok _ => k t
    | Err e => (Err e, t)
    end.

(** [store(data)]: the body of the response to [POST /]. *)
Definition store (data : string) : C Body :=
  guarded (Guards.stringValue CLASS_NAME "data" data)
    (fetch (mkRequest "/" POST [] (Some (StoreRequest data)))).

(** [get(id, options)]: the body of the response to [GET /:id]. *)
Definition get (id : string) (options : option bool) : C Body :=
  guarded (Guards.stringValue CLASS_NAME "id" id)
    (fetch (mkRequest "/:id" GET [("id", id)]
              (match options with
               | Some includeData => Some (GetOptions includeData)
               | None => None
               end))).

(** [remove(id)]: sends [DELETE /:id] and returns nothing. *)
Definition remove (id : string) : C unit :=
  guarded (Urn.guard CLASS_NAME "id" id)
    (fun t =>
       match fetch (mkRequest "/:id" DELETE [("id", id)] None) t with
       | (Ok _, t') => (Ok tt, t')
       | (Err e, t') => (Err e, t')
       end).

End Client.

End ImmutableStorageClient.

Module Client := ImmutableStorageClient.

(** * Properties *)

(** ** The model on sample inputs *)

Example bytesToHex_sample :
  Converter.bytesToHex [Byte.x00; Byte.x0f; Byte.xa5; Byte.xff] = "000fa5ff".
Proof. reflexivity. Qed.

Example bytesToBase64_sample :
  Converter.bytesToBase64 [Byte.x4d; Byte.x61; Byte.x6e; Byte.x4d; Byte.x61] = "TWFuTWE=".
Proof. reflexivity. Qed.

Example base64ToBytes_sample :
  Converter.base64ToBytes "TWFuTQ==" = Some [Byte.x4d; Byte.x61; Byte.x6e; Byte.x4d].
Proof. reflexivity. Qed.

Example store_sample :
  fst (Connector.store "alice" samplePayload sampleWorld) = Ok sampleId.
Proof. reflexivity. Qed.

Example get_sample :
  fst (Connector.get sampleId storedWorld) = Ok samplePayload.
Proof. reflexivity. Qed.

Example get_malformed_sample :
  Connector.get "not-a-valid-id" storedWorld
  = (Err (GuardError Connector.CLASS_NAME "guard.urn" "id"), storedWorld).
Proof. reflexivity. Qed.

Example store_outage_sample :
  Connector.store "alice" samplePayload (mkWorld ∅ [] (Some "down") (entropy sampleWorld) 0)
  = (Err (GeneralError Connector.CLASS_NAME "storingFailed" []
            (Some (ThrownError EntityStorage.CLASS_NAME "down"))),
     mkWorld ∅
       [SetCall (ImmutableItem.mk sampleRawId "alice" "AQI=")]
       (Some "down") (entropy sampleWorld) 32).
Proof. reflexivity. Qed.

Example tryParseExact_sample :
  Urn.tryParseExact "immutable:entity-storage:00ff"
  = Some (Urn.mk ["immutable"; "entity-storage"; "00ff"]).
Proof. reflexivity. Qed.

(** ** Strings *)

Section StringFacts.

Variable sep : ascii.

Lemma split_not_nil (s : string) : split sep s <> [].
Proof.
  destruct s as [|c s]; simpl; [discriminate|].
  destruct (Ascii.eqb c sep); [discriminate|].
  destruct (split sep s); discriminate.
Qed.

Lemma split_free (s : string) : free_of sep s = true -> split sep s = [s].
Proof.
  induction s as [|c s IH]; simpl; [reflexivity|].
  intros H. apply andb_prop in H as [Hc Hs].
  apply negb_true_iff in Hc. rewrite Hc, (IH Hs). reflexivity.
Qed.

Lemma split_app (h t : string) :
  free_of sep h = true -> split sep (h +:+ String sep t) = h :: split sep t.
Proof.
  induction h as [|c h IH]; simpl.
  - intros _. rewrite Ascii.eqb_refl. reflexivity.
  - intros H. apply andb_prop in H as [Hc Hh].
    apply negb_true_iff in Hc. rewrite Hc, (IH Hh). reflexivity.
Qed.

Lemma cut_app (h t : string) :
  free_of sep h = true -> cut sep (h +:+ String sep t) = Some (h, t).
Proof.
  induction h as [|c h IH]; simpl.
  - intros _. rewrite Ascii.eqb_refl. reflexivity.
  - intros H. apply andb_prop in H as [Hc Hh].
    apply negb_true_iff in Hc. rewrite Hc, (IH Hh). reflexivity.
Qed.

Lemma join_split (s : string) : join (String sep EmptyString) (split sep s) = s.
Proof.
  unfold join. induction s as [|c s IH]; simpl; [reflexivity|].
  destruct (Ascii.eqb_spec c sep) as [->|Hne].
  - pose proof (split_not_nil s) as Hnil.
    destruct (split sep s) as [|p ps] eqn:E; [contradiction|].
    simpl. simpl in IH. rewrite IH. reflexivity.
  - pose proof (split_not_nil s) as Hnil.
    destruct (split sep s) as [|p ps] eqn:E; [contradiction|].
    simpl in *. destruct ps as [|q qs]; simpl in *; rewrite <- IH; reflexivity.
Qed.

End StringFacts.

Lemma forallb_weaken (p q : ascii -> bool) (s : string) :
  (forall c, p c = true -> q c = true) ->
  string_forallb p s = true -> string_forallb q s = true.
Proof.
  intros Hpq. induction s as [|c s IH]; simpl; [reflexivity|].
  intros H. apply andb_prop in H as [Hc Hs].
  rewrite (Hpq _ Hc), (IH Hs). reflexivity.
Qed.

Lemma forallb_app (p : ascii -> bool) (s t : string) :
  string_forallb p (s +:+ t) = string_forallb p s && string_forallb p t.
Proof.
  induction s as [|c s IH]; simpl; [reflexivity|].
  rewrite IH. apply andb_assoc.
Qed.

(** The optional [urn:] prefix is only ever seen on the namespace [urn]. *)
Lemma startsWith_urn (namespace rest : string) :
  free_of ":" namespace = true ->
  startsWith "urn:" (namespace +:+ String ":" rest) = true ->
  namespace = "urn".
Proof.
  unfold startsWith, free_of. intros Hfree H.
  destruct namespace as [|a [|b [|c [|d n]]]]; simpl in *;
    repeat match type of H with
           | (if ?x then _ else _) = true => destruct x as [e|]; [subst|discriminate]
           end; try discriminate; try reflexivity.
Qed.

(** ** The converter: hexadecimal and base64 *)

Section ConverterFacts.

Import Converter.

Lemma base64Value_base64Char (n : nat) :
  n < 64 ->
  base64Value (base64Char n) = n /\ Ascii.eqb (base64Char n) "=" = false.
Proof.
  intros H.
  do 64 (destruct n as [|n]; [split; reflexivity|]).
  lia.
Qed.

Lemma byteOfNat_to_nat (b : byte) : byteOfNat (Byte.to_nat b) = b.
Proof.
  unfold byteOfNat.
  pose proof (Byte.to_nat_bounded b) as Hb.
  rewrite Nat.mod_small by lia.
  rewrite Byte.of_to_nat. reflexivity.
Qed.

(** Three steps at a time over a list. *)
Lemma list_ind3 {A : Type} (P : list A -> Prop) :
  P [] ->
  (forall a, P [a]) ->
  (forall a b, P [a; b]) ->
  (forall a b c l, P l -> P (a :: b :: c :: l)) ->
  forall l, P l.
Proof.
  intros H0 H1 H2 H3 l.
  assert (P l /\ (forall a, P (a :: l)) /\ (forall a b, P (a :: b :: l))) as [H _].
  { induction l as [|x l (IH0 & IH1 & IH2)].
    - repeat split; auto.
    - repeat split; auto. }
  exact H.
Qed.

Ltac sextet H :=
  let V := fresh "V" in let Q := fresh "Q" in
  destruct (base64Value_base64Char _ H) as [V Q]; rewrite ?V, ?Q; clear V Q.

(** What [bytesToBase64] writes, [base64ToBytes] reads back. *)
Lemma base64_roundtrip (bytes : list byte) :
  base64ToBytes (bytesToBase64 bytes) = Some bytes.
Proof.
  induction bytes as [|a|a b|a b c rest IH] using list_ind3.
  - reflexivity.
  - cbn [bytesToBase64 base64ToBytes].
    pose proof (Byte.to_nat_bounded a) as Ha.
    set (x := Byte.to_nat a) in *.
    assert (H0 : x / 4 < 64) by (apply Nat.Div0.div_lt_upper_bound; lia).
    assert (H1 : x mod 4 * 16 < 64) by (pose proof (Nat.mod_upper_bound x 4); lia).
    sextet H0. sextet H1.
    change (Ascii.eqb "=" "=") with true. cbv iota.
    replace (x / 4 * 4 + x mod 4 * 16 / 16) with x
      by (rewrite Nat.div_mul by lia; pose proof (Nat.div_mod_eq x 4); lia).
    subst x. rewrite byteOfNat_to_nat. reflexivity.
  - cbn [bytesToBase64 base64ToBytes].
    pose proof (Byte.to_nat_bounded a) as Ha.
    pose proof (Byte.to_nat_bounded b) as Hb.
    set (x := Byte.to_nat a) in *. set (y := Byte.to_nat b) in *.
    assert (H0 : x / 4 < 64) by (apply Nat.Div0.div_lt_upper_bound; lia).
    assert (Hy : y / 16 < 16) by (apply Nat.Div0.div_lt_upper_bound; lia).
    pose proof (Nat.mod_upper_bound x 4) as Hx4.
    pose proof (Nat.mod_upper_bound y 16) as Hy16.
    assert (H1 : x mod 4 * 16 + y / 16 < 64) by lia.
    assert (H2 : y mod 16 * 4 < 64) by lia.
    sextet H0. sextet H1. sextet H2.
    change (Ascii.eqb "=" "=") with true. cbv iota.
    replace (x / 4 * 4 + (x mod 4 * 16 + y / 16) / 16) with x.
    2:{ rewrite (Nat.add_comm (x mod 4 * 16)), Nat.div_add by lia.
        rewrite (Nat.div_small (y / 16)) by lia.
        pose proof (Nat.div_mod_eq x 4); lia. }
    replace ((x mod 4 * 16 + y / 16) mod 16 * 16 + y mod 16 * 4 / 4) with y.
    2:{ rewrite (Nat.add_comm (x mod 4 * 16)), Nat.Div0.mod_add.
        rewrite (Nat.mod_small (y / 16)) by lia.
        rewrite Nat.div_mul by lia.
        pose proof (Nat.div_mod_eq y 16); lia. }
    subst x y. rewrite !byteOfNat_to_nat. reflexivity.
  - cbn [bytesToBase64 base64ToBytes]. rewrite IH.
    pose proof (Byte.to_nat_bounded a) as Ha.
    pose proof (Byte.to_nat_bounded b) as Hb.
    pose proof (Byte.to_nat_bounded c) as Hc.
    set (x := Byte.to_nat a) in *. set (y := Byte.to_nat b) in *.
    set (z := Byte.to_nat c) in *.
    assert (H0 : x / 4 < 64) by (apply Nat.Div0.div_lt_upper_bound; lia).
    assert (Hy : y / 16 < 16) by (apply Nat.Div0.div_lt_upper_bound; lia).
    assert (Hz : z / 64 < 4) by (apply Nat.Div0.div_lt_upper_bound; lia).
    pose proof (Nat.mod_upper_bound x 4) as Hx4.
    pose proof (Nat.mod_upper_bound y 16) as Hy16.
    pose proof (Nat.mod_upper_bound z 64) as Hz64.
    assert (H1 : x mod 4 * 16 + y / 16 < 64) by lia.
    assert (H2 : y mod 16 * 4 + z / 64 < 64) by lia.
    assert (H3 : z mod 64 < 64) by lia.
    sextet H0. sextet H1. sextet H2. sextet H3.
    replace (x / 4 * 4 + (x mod 4 * 16 + y / 16) / 16) with x.
    2:{ rewrite (Nat.add_comm (x mod 4 * 16)), Nat.div_add by lia.
        rewrite (Nat.div_small (y / 16)) by lia.
        pose proof (Nat.div_mod_eq x 4); lia. }
    replace ((x mod 4 * 16 + y / 16) mod 16 * 16 + (y mod 16 * 4 + z / 64) / 4) with y.
    2:{ rewrite (Nat.add_comm (x mod 4 * 16)), Nat.Div0.mod_add.
        rewrite (Nat.mod_small (y / 16)) by lia.
        rewrite (Nat.add_comm (y mod 16 * 4)), Nat.div_add by lia.
        rewrite (Nat.div_small (z / 64)) by lia.
        pose proof (Nat.div_mod_eq y 16); lia. }
    replace ((y mod 16 * 4 + z / 64) mod 4 * 64 + z mod 64) with z.
    2:{ rewrite (Nat.add_comm (y mod 16 * 4)), Nat.Div0.mod_add.
        rewrite (Nat.mod_small (z / 64)) by lia.
        pose proof (Nat.div_mod_eq z 64); lia. }
    subst x y z. rewrite !byteOfNat_to_nat. reflexivity.
Qed.

Lemma hexDigit_is_hex (n : nat) : n < 16 -> is_hex (hexDigit n) = true.
Proof.
  intros H.
  do 16 (destruct n as [|n]; [reflexivity|]).
  lia.
Qed.

Lemma bytesToHex_length (bytes : list byte) :
  String.length (bytesToHex bytes) = 2 * length bytes.
Proof.
  induction bytes as [|b rest IH]; simpl; [reflexivity|].
  rewrite IH. lia.
Qed.

Lemma bytesToHex_is_hex (bytes : list byte) :
  string_forallb is_hex (bytesToHex bytes) = true.
Proof.
  induction bytes as [|b rest IH]; [reflexivity|].
  cbn [bytesToHex string_forallb].
  pose proof (Byte.to_nat_bounded b) as Hb.
  rewrite !hexDigit_is_hex, IH; [reflexivity| |].
  - apply Nat.mod_upper_bound. lia.
  - apply Nat.Div0.div_lt_upper_bound. lia.
Qed.

End ConverterFacts.

(** ** Urns *)

Lemma is_hex_nssChar (c : ascii) : is_hex c = true -> Urn.nssChar c = true.
Proof.
  unfold is_hex, Urn.nssChar.
  intros H. apply orb_true_iff in H as [H|H].
  - rewrite H. reflexivity.
  - assert (Hl : is_lower c = true).
    { unfold is_lower, ascii_in in *. apply andb_prop in H as [H1 H2].
      apply Nat.leb_le in H1, H2.
      change (nat_of_ascii "a") with 97 in *.
      change (nat_of_ascii "f") with 102 in H2.
      change (nat_of_ascii "z") with 122.
      apply andb_true_intro. split; apply Nat.leb_le; lia. }
    rewrite Hl, orb_true_r. reflexivity.
Qed.

Lemma is_hex_not_colon (c : ascii) : is_hex c = true -> negb (Ascii.eqb c ":") = true.
Proof.
  intros H. destruct (Ascii.eqb_spec c ":") as [->|]; [discriminate H|reflexivity].
Qed.

Lemma nidChar_not_colon (c : ascii) :
  Urn.nidChar c = true -> negb (Ascii.eqb c ":") = true.
Proof.
  intros H. destruct (Ascii.eqb_spec c ":") as [->|]; [discriminate H|reflexivity].
Qed.

Lemma matchNid_free (s : string) : Urn.matchNid s = true -> free_of ":" s = true.
Proof.
  destruct s as [|c rest]; [discriminate|].
  unfold Urn.matchNid, free_of. intros H.
  apply andb_prop in H as [H _]. apply andb_prop in H as [Hc Hrest].
  cbn [string_forallb]. apply andb_true_intro. split.
  - apply nidChar_not_colon. unfold Urn.nidChar, Urn.nidFirst in *.
    rewrite Hc. reflexivity.
  - revert Hrest. apply forallb_weaken, nidChar_not_colon.
Qed.

Lemma stringValue_app (s t : string) :
  Is.stringValue s = true -> Is.stringValue (s +:+ t) = true.
Proof. destruct s; [discriminate|reflexivity]. Qed.

(** A parsed urn has passed every guard on the way. *)
Lemma tryParseExact_guard (source property urn : string) (u : Urn.t) :
  Urn.tryParseExact urn = Some u -> Urn.guard source property urn = Ok tt.
Proof.
  intros H. unfold Urn.guard, Urn.validate, Guards.stringValue.
  rewrite H. unfold Urn.tryParseExact in H.
  destruct (Is.stringValue urn); [reflexivity|discriminate].
Qed.

Lemma tryParseExact_fromValidString (urn : string) (u : Urn.t) :
  Urn.tryParseExact urn = Some u -> Urn.fromValidString urn = Ok u.
Proof.
  intros H. unfold Urn.fromValidString.
  rewrite (tryParseExact_guard _ _ _ _ H). simpl. rewrite H. reflexivity.
Qed.

Lemma guard_tryParseExact (source property urn : string) :
  Urn.guard source property urn = Ok tt -> exists u, Urn.tryParseExact urn = Some u.
Proof.
  unfold Urn.guard, Urn.validate, Guards.stringValue.
  destruct (Is.stringValue urn); [|discriminate]. simpl.
  destruct (Urn.tryParseExact urn) as [u|]; [eauto|discriminate].
Qed.

Lemma parse_tryParseExact (input method rawId : string) :
  Identifier.parse input = Some (method, rawId) <->
  exists u, Urn.tryParseExact input = Some u
            /\ Urn.namespaceMethod u = method
            /\ Urn.namespaceSpecific 1 u = rawId.
Proof.
  unfold Identifier.parse. split.
  - destruct (Urn.guard _ _ input) as [[]|e] eqn:G; [|discriminate].
    apply guard_tryParseExact in G as [u Hu].
    simpl. rewrite (tryParseExact_fromValidString _ _ Hu).
    intros [= <- <-]. eauto.
  - intros (u & Hu & <- & <-).
    rewrite (tryParseExact_guard _ _ _ _ Hu). simpl.
    rewrite (tryParseExact_fromValidString _ _ Hu). reflexivity.
Qed.

(** The urn of a formatted identifier: its parts are the namespace, the
    method and the raw id split at its colons. *)
Lemma tryParseExact_format (namespace method rawId : string) :
  Urn.matchNid namespace = true ->
  namespace <> "urn" ->
  Is.stringValue method = true ->
  free_of ":" method = true ->
  string_forallb Urn.nssChar method = true ->
  string_forallb Urn.nssChar rawId = true ->
  Urn.tryParseExact (Identifier.format namespace method rawId)
  = Some (Urn.mk (namespace :: method :: split ":" rawId)).
Proof.
  intros Hnid Hurn Hm Hfree Hmc Hrc.
  pose proof (matchNid_free _ Hnid) as Hnfree.
  change (Identifier.format namespace method rawId)
    with (namespace +:+ String ":" (method +:+ String ":" rawId)).
  unfold Urn.tryParseExact.
  rewrite stringValue_app by (destruct namespace; [discriminate Hnid|reflexivity]).
  unfold Urn.exec.
  destruct (startsWith "urn:" _) eqn:Hprefix.
  { apply startsWith_urn in Hprefix; [contradiction|assumption]. }
  unfold Urn.matchUrn. rewrite cut_app by assumption.
  rewrite Hnid. unfold Urn.matchNss.
  rewrite stringValue_app by assumption.
  rewrite forallb_app, Hmc. cbn [string_forallb]. rewrite Hrc.
  change (Urn.nssChar ":") with true. cbn [andb].
  unfold Urn.make. rewrite split_app by assumption. reflexivity.
Qed.

Lemma namespaceSpecific_format (namespace method rawId : string) :
  Urn.namespaceSpecific 1 (Urn.mk (namespace :: method :: split ":" rawId)) = rawId.
Proof.
  unfold Urn.namespaceSpecific. cbn [Urn._urnParts length Nat.ltb Nat.leb Nat.add drop].
  apply join_split.
Qed.

(** ** The connector, step by step *)

Section ConnectorFacts.

Import Connector.

Lemma bytesToHex_stringValue (bytes : list byte) :
  bytes <> [] -> Is.stringValue (Converter.bytesToHex bytes) = true.
Proof. destruct bytes; [contradiction|reflexivity]. Qed.

(** The identifier [store] returns (the template of its [return]) is the
    formatted triple of ["immutable"], [NAMESPACE] and the item id. *)
Lemma returned_identifier (immutableItemId : string) :
  Is.stringValue immutableItemId = true ->
  free_of ":" immutableItemId = true ->
  andThen (Urn.new NAMESPACE immutableItemId)
    (fun urn => Ok ("immutable:" +:+ Urn.toString urn))
  = Ok (Identifier.format "immutable" NAMESPACE immutableItemId).
Proof.
  intros Hv Hfree. unfold Urn.new, Guards.stringValue. rewrite Hv.
  cbn [andThen Is.stringValue String.eqb negb NAMESPACE Ascii.eqb].
  unfold Urn.make, Urn.toString. rewrite (split_free _ _ Hfree). reflexivity.
Qed.

Lemma random_bytes_not_nil (w : World) : map (entropy w) (seq (drawn w) 32) <> [].
Proof. discriminate. Qed.

Lemma hex_free (bytes : list byte) : free_of ":" (Converter.bytesToHex bytes) = true.
Proof.
  unfold free_of. generalize (bytesToHex_is_hex bytes).
  apply forallb_weaken, is_hex_not_colon.
Qed.

(** A [store] by a named controller against a working storage. *)
Lemma store_run (controller : string) (data : list byte) (w : World) :
  controller <> EmptyString ->
  outage w = None ->
  let immutableItemId := Converter.bytesToHex (map (entropy w) (seq (drawn w) 32)) in
  let immutableItem :=
    ImmutableItem.mk immutableItemId controller (Converter.bytesToBase64 data) in
  store controller data w
  = (Ok (Identifier.format "immutable" NAMESPACE immutableItemId),
     withEntities (insert immutableItemId immutableItem)
       (withCall (SetCall immutableItem) (withDrawn 32 w))).
Proof.
  intros Hc Hw hex item.
  pose proof (returned_identifier hex
    (bytesToHex_stringValue _ (random_bytes_not_nil w)) (hex_free _)) as Hid.
  unfold store, bind, lift, tryCatch, Guards.stringValue, Guards.uint8Array, Is.stringValue.
  apply String.eqb_neq in Hc. rewrite Hc. cbn [negb].
  unfold RandomHelper.generate, EntityStorage.set, EntityStorage.receive, bind, ret.
  cbn [outage withDrawn withCall]. rewrite Hw.
  fold hex. fold item.
  destruct (Urn.new NAMESPACE hex) as [urn|e]; [|discriminate Hid].
  cbn [andThen] in Hid. rewrite Hid. reflexivity.
Qed.

(** [store] succeeds only for a named controller against a working
    storage. *)
Lemma store_success (controller : string) (data : list byte) (w w' : World) (id : string) :
  store controller data w = (Ok id, w') ->
  controller <> EmptyString /\ outage w = None.
Proof.
  intros Hstore. split.
  - intros ->. discriminate Hstore.
  - destruct (outage w) as [message|] eqn:Hw; [|reflexivity].
    revert Hstore.
    unfold store, bind, lift, tryCatch, Guards.stringValue, Guards.uint8Array.
    destruct (Is.stringValue controller); [|discriminate].
    unfold RandomHelper.generate, EntityStorage.set, EntityStorage.receive, bind.
    cbn [outage withDrawn]. rewrite Hw. discriminate.
Qed.

(** [get] on an identifier addressed to another backend: the error is
    thrown before the [try], in the world as it was. *)
Lemma get_mismatch (id : string) (u : Urn.t) (w : World) :
  Urn.tryParseExact id = Some u ->
  Urn.namespaceMethod u <> NAMESPACE ->
  get id w
  = (Err (GeneralError CLASS_NAME "namespaceMismatch"
            [("namespace", NAMESPACE); ("id", id)] None), w).
Proof.
  intros Hu Hm. unfold get, bind, lift.
  rewrite (tryParseExact_guard _ _ _ _ Hu), (tryParseExact_fromValidString _ _ Hu).
  apply String.eqb_neq in Hm. rewrite Hm. reflexivity.
Qed.

(** [get] on an identifier of this backend: one lookup, and every failure
    inside the [try] comes out wrapped as ["gettingFailed"]. *)
Lemma get_lookup (id : string) (u : Urn.t) (w : World) :
  Urn.tryParseExact id = Some u ->
  Urn.namespaceMethod u = NAMESPACE ->
  let immutableItemId := Urn.namespaceSpecific 1 u in
  get id w
  = (match outage w with
     | Some message =>
         Err (GeneralError CLASS_NAME "gettingFailed" []
                (Some (ThrownError EntityStorage.CLASS_NAME message)))
     | None =>
         match entities w !! immutableItemId with
         | None =>
             Err (GeneralError CLASS_NAME "gettingFailed" []
                    (Some (NotFoundError CLASS_NAME "immutableStorageNotFound")))
         | Some item =>
             match Converter.base64ToBytes (ImmutableItem.data item) with
             | Some bytes => Ok bytes
             | None =>
                 Err (GeneralError CLASS_NAME "gettingFailed" []
                        (Some (ThrownError "Converter" "base64ToBytes")))
             end
         end
     end, withCall (GetCall immutableItemId) w).
Proof.
  intros Hu Hm k. unfold get, bind, lift.
  rewrite (tryParseExact_guard _ _ _ _ Hu), (tryParseExact_fromValidString _ _ Hu).
  rewrite Hm, String.eqb_refl. cbn [negb ret].
  unfold tryCatch, bind, EntityStorage.get, EntityStorage.receive, bind. fold k.
  destruct (outage w) as [message|]; [reflexivity|].
  cbn [entities withCall].
  destruct (entities w !! k) as [item|]; [|reflexivity].
  unfold base64ToBytes.
  destruct (Converter.base64ToBytes (ImmutableItem.data item)); reflexivity.
Qed.

(** [remove] by a named controller on an identifier of this backend. *)
Lemma remove_lookup (controller id : string) (u : Urn.t) (w : World) :
  controller <> EmptyString ->
  Urn.tryParseExact id = Some u ->
  Urn.namespaceMethod u = NAMESPACE ->
  outage w = None ->
  let immutableItemId := Urn.namespaceSpecific 1 u in
  remove controller id w
  = match entities w !! immutableItemId with
    | None =>
        (Err (GeneralError CLASS_NAME "removingFailed" []
                (Some (NotFoundError CLASS_NAME "immutableStorageNotFound"))),
         withCall (GetCall immutableItemId) w)
    | Some item =>
        if String.eqb (ImmutableItem.controller item) controller then
          (Ok tt,
           withEntities (delete immutableItemId)
             (withCall (RemoveCall immutableItemId)
                (withCall (GetCall immutableItemId) w)))
        else
          (Err (GeneralError CLASS_NAME "removingFailed" []
                  (Some (GeneralError CLASS_NAME "notControllerRemove" [] None))),
           withCall (GetCall immutableItemId) w)
    end.
Proof.
  intros Hc Hu Hm Hw k. unfold remove, bind, lift, Guards.stringValue, Is.stringValue.
  apply String.eqb_neq in Hc. rewrite Hc. cbn [negb].
  rewrite (tryParseExact_guard _ _ _ _ Hu), (tryParseExact_fromValidString _ _ Hu).
  rewrite Hm, String.eqb_refl. cbn [negb ret].
  unfold tryCatch, bind, EntityStorage.get, EntityStorage.remove, EntityStorage.receive, bind.
  fold k. rewrite Hw. cbn [entities withCall outage].
  destruct (entities w !! k) as [item|]; [|reflexivity].
  destruct (String.eqb (ImmutableItem.controller item) controller); cbn [negb].
  - change (outage (withCall (GetCall k) w)) with (outage w).
    rewrite Hw. reflexivity.
  - reflexivity.
Qed.

(** Whatever [get] does, the entities stay as they were. *)
Lemma get_entities (id : string) (w : World) :
  entities (snd (get id w)) = entities w.
Proof.
  unfold get, bind, lift.
  destruct (Urn.guard CLASS_NAME "id" id) as [[]|e]; [|reflexivity].
  destruct (Urn.fromValidString id) as [u|e]; [|reflexivity].
  destruct (negb _); [reflexivity|]. cbn [ret].
  unfold tryCatch, bind, EntityStorage.get, EntityStorage.receive, bind.
  destruct (outage w); [reflexivity|]. cbn [entities withCall].
  destruct (entities w !! _) as [item|]; [|reflexivity].
  unfold base64ToBytes. destruct (Converter.base64ToBytes _); reflexivity.
Qed.

(** [store] only ever adds: an entity there before is not lost. *)
Lemma store_keeps (controller : string) (data : list byte) (w : World) (k : string) :
  is_Some (entities w !! k) ->
  is_Some (entities (snd (store controller data w)) !! k).
Proof.
  intros Hk. unfold store, bind, lift.
  destruct (Guards.stringValue _ _ controller) as [[]|e]; [|exact Hk].
  cbn [Guards.uint8Array].
  unfold tryCatch, bind, RandomHelper.generate, EntityStorage.set, EntityStorage.receive, bind.
  cbn [outage withDrawn]. destruct (outage w); [exact Hk|].
  destruct (Urn.new _ _) as [urn|e]; cbn [snd entities withEntities withCall withDrawn throw ret];
    (rewrite lookup_insert; case_decide; [eauto|exact Hk]).
Qed.

(** [remove] changes the entities only when it succeeds, and then it
    deletes the item its identifier names, on behalf of its controller. *)
Lemma remove_entities (controller id : string) (w : World) :
  entities (snd (remove controller id w)) = entities w
  \/ exists rawId item,
       Identifier.parse id = Some (NAMESPACE, rawId)
       /\ entities w !! rawId = Some item
       /\ ImmutableItem.controller item = controller
       /\ fst (remove controller id w) = Ok tt
       /\ entities (snd (remove controller id w)) = delete rawId (entities w).
Proof.
  unfold remove, bind, lift.
  destruct (Guards.stringValue _ _ controller) as [[]|e]; [|left; reflexivity].
  destruct (Urn.guard CLASS_NAME "id" id) as [[]|e] eqn:G; [|left; reflexivity].
  apply guard_tryParseExact in G as [u Hu].
  rewrite (tryParseExact_fromValidString _ _ Hu).
  destruct (String.eqb_spec (Urn.namespaceMethod u) NAMESPACE) as [Hm|Hm];
    [|left; reflexivity].
  cbn [negb ret].
  unfold tryCatch, bind, EntityStorage.get, EntityStorage.remove, EntityStorage.receive, bind.
  destruct (outage w) eqn:Hw; [left; reflexivity|]. cbn [entities withCall outage].
  destruct (entities w !! _) as [item|] eqn:Hk; [|left; reflexivity].
  destruct (String.eqb_spec (ImmutableItem.controller item) controller) as [Hc|Hc];
    cbn [negb]; [|left; reflexivity].
  change (outage (withCall _ w)) with (outage w).
  rewrite Hw. right. exists (Urn.namespaceSpecific 1 u), item.
  split; [apply parse_tryParseExact; eauto|].
  repeat split; assumption || reflexivity.
Qed.

End ConnectorFacts.

(** * The claims *)

(** C1 (as the code has it): for every syntactically valid identifier
    with no record under its raw id, [get] on an identifier whose method
    tag is this backend's looks the id up once and fails with the generic
    [GeneralError] tagged ["gettingFailed"]; the [NotFoundError] is the
    cause wrapped inside it, not the error that reaches the caller, and
    the same wrapper carries a failure of the backing store.  Only the
    namespace mismatch, thrown before the [try], reaches the caller as
    it is. *)
Theorem get_absent_is_wrapped (id method rawId : string) (w : World) :
  Identifier.parse id = Some (method, rawId) ->
  entities w !! rawId = None ->
  let cause :=
    match outage w with
    | Some message => ThrownError EntityStorage.CLASS_NAME message
    | None => NotFoundError Connector.CLASS_NAME "immutableStorageNotFound"
    end in
  let failed := GeneralError Connector.CLASS_NAME "gettingFailed" [] (Some cause) in
  let mismatch :=
    GeneralError Connector.CLASS_NAME "namespaceMismatch"
      [("namespace", Connector.NAMESPACE); ("id", id)] None in
  Connector.get id w
  = (if String.eqb method Connector.NAMESPACE
     then (Err failed, withCall (GetCall rawId) w)
     else (Err mismatch, w))
  /\ ErrorKind.classify failed = ErrorKind.StorageOperation "gettingFailed"
  /\ ErrorKind.classify mismatch = ErrorKind.NamespaceMismatch.
Proof.
  intros Hparse Habsent cause failed mismatch.
  apply parse_tryParseExact in Hparse as (u & Hu & <- & <-).
  split; [|split; reflexivity].
  destruct (String.eqb_spec (Urn.namespaceMethod u) Connector.NAMESPACE) as [Hm|Hm].
  - rewrite (get_lookup _ _ w Hu Hm). subst failed cause.
    destruct (outage w); [reflexivity|].
    rewrite Habsent. reflexivity.
  - apply (get_mismatch _ _ w Hu Hm).
Qed.

Lemma get_absent_is_wrapped_witness :
  Identifier.parse sampleId = Some (Connector.NAMESPACE, sampleRawId)
  /\ entities sampleWorld !! sampleRawId = None
  /\ Connector.get sampleId sampleWorld
     = (Err (GeneralError Connector.CLASS_NAME "gettingFailed" []
               (Some (NotFoundError Connector.CLASS_NAME "immutableStorageNotFound"))),
        withCall (GetCall sampleRawId) sampleWorld).
Proof.
  split; [reflexivity|]. split; [reflexivity|].
  exact (proj1 (get_absent_is_wrapped sampleId Connector.NAMESPACE sampleRawId
                  sampleWorld eq_refl eq_refl)).
Defined.

(** C1 fails as stated: on a valid identifier of this backend with no
    record, the error that reaches the caller is the generic
    ["gettingFailed"] one, whose kind is not [NotFound]. *)
Lemma get_absent_counterexample :
  Identifier.parse sampleId = Some (Connector.NAMESPACE, sampleRawId)
  /\ entities sampleWorld !! sampleRawId = None
  /\ outage sampleWorld = None
  /\ fst (Connector.get sampleId sampleWorld)
     = Err (GeneralError Connector.CLASS_NAME "gettingFailed" []
              (Some (NotFoundError Connector.CLASS_NAME "immutableStorageNotFound")))
  /\ ErrorKind.classify
       (GeneralError Connector.CLASS_NAME "gettingFailed" []
          (Some (NotFoundError Connector.CLASS_NAME "immutableStorageNotFound")))
     <> ErrorKind.NotFound.
Proof.
  repeat split; try reflexivity. discriminate.
Qed.

(** C2 (as the code has it): for every record stored with owner A and
    every non-empty caller B other than A, [remove(B, identifier)] fails
    with the generic [GeneralError] tagged ["removingFailed"], which wraps
    the ["notControllerRemove"] error as its cause; the entities are
    unchanged, and a [get] of the identifier afterwards still returns the
    original payload. *)
Theorem remove_by_other_is_refused
    (owner other id rawId : string) (payload : list byte)
    (item : ImmutableItem.t) (w : World) :
  Identifier.parse id = Some (Connector.NAMESPACE, rawId) ->
  outage w = None ->
  entities w !! rawId = Some item ->
  ImmutableItem.controller item = owner ->
  ImmutableItem.data item = Converter.bytesToBase64 payload ->
  other <> EmptyString ->
  other <> owner ->
  let refused :=
    GeneralError Connector.CLASS_NAME "removingFailed" []
      (Some (GeneralError Connector.CLASS_NAME "notControllerRemove" [] None)) in
  let w' := withCall (GetCall rawId) w in
  Connector.remove other id w = (Err refused, w')
  /\ ErrorKind.classify refused = ErrorKind.StorageOperation "removingFailed"
  /\ entities w' = entities w
  /\ fst (Connector.get id w') = Ok payload.
Proof.
  intros Hparse Hw Hitem Howner Hdata Hother Hne refused w'.
  apply parse_tryParseExact in Hparse as (u & Hu & Hm & <-).
  split; [|split; [reflexivity|split; [reflexivity|]]].
  - rewrite (remove_lookup _ _ _ w Hother Hu Hm Hw), Hitem.
    rewrite Howner. apply not_eq_sym, String.eqb_neq in Hne. rewrite Hne.
    reflexivity.
  - rewrite (get_lookup _ _ w' Hu Hm).
    change (outage w') with (outage w). change (entities w') with (entities w).
    rewrite Hw, Hitem, Hdata, base64_roundtrip. reflexivity.
Qed.

Lemma remove_by_other_is_refused_witness :
  Connector.store "alice" samplePayload sampleWorld = (Ok sampleId, storedWorld)
  /\ fst (Connector.remove "bob" sampleId storedWorld)
     = Err (GeneralError Connector.CLASS_NAME "removingFailed" []
              (Some (GeneralError Connector.CLASS_NAME "notControllerRemove" [] None)))
  /\ fst (Connector.get sampleId (snd (Connector.remove "bob" sampleId storedWorld)))
     = Ok samplePayload.
Proof.
  split; [reflexivity|].
  pose proof (remove_by_other_is_refused "alice" "bob" sampleId sampleRawId samplePayload
                (ImmutableItem.mk sampleRawId "alice" "AQI=") storedWorld
                eq_refl eq_refl eq_refl eq_refl eq_refl) as H.
  cbv zeta in H.
  destruct H as (Hremove & _ & _ & Hget); [discriminate|discriminate|].
  rewrite Hremove. split; [reflexivity|exact Hget].
Defined.

(** C2 fails as stated: a [remove] by another caller is refused with the
    generic ["removingFailed"] error, whose kind is not [NotAuthorized]. *)
Lemma remove_by_other_counterexample :
  Connector.store "alice" samplePayload sampleWorld = (Ok sampleId, storedWorld)
  /\ fst (Connector.remove "bob" sampleId storedWorld)
     = Err (GeneralError Connector.CLASS_NAME "removingFailed" []
              (Some (GeneralError Connector.CLASS_NAME "notControllerRemove" [] None)))
  /\ ErrorKind.classify
       (GeneralError Connector.CLASS_NAME "removingFailed" []
          (Some (GeneralError Connector.CLASS_NAME "notControllerRemove" [] None)))
     <> ErrorKind.NotAuthorized.
Proof.
  repeat split; try reflexivity. discriminate.
Qed.

(** C4 (as the code has it): [store] and [remove] reject the empty
    controller, and [get] and [remove] the empty identifier, with a
    [GuardError] and in the world as it was: no call reaches the backing
    store.  (The guard on [data] looks at its type only; an empty byte
    sequence is not rejected.) *)
Theorem empty_arguments_are_rejected
    (controller id : string) (data : list byte) (w : World) :
  Connector.store EmptyString data w
  = (Err (GuardError Connector.CLASS_NAME "guard.stringEmpty" "controller"), w)
  /\ Connector.remove EmptyString id w
     = (Err (GuardError Connector.CLASS_NAME "guard.stringEmpty" "controller"), w)
  /\ Connector.get EmptyString w
     = (Err (GuardError Connector.CLASS_NAME "guard.stringEmpty" "id"), w)
  /\ Connector.remove controller EmptyString w
     = (Err (GuardError Connector.CLASS_NAME "guard.stringEmpty"
               (if Is.stringValue controller then "id" else "controller")), w).
Proof.
  repeat split; try reflexivity.
  unfold Connector.remove, bind, lift, Guards.stringValue.
  destruct (Is.stringValue controller); reflexivity.
Qed.

(** C4 fails as stated: [store] with an empty byte sequence succeeds, and
    the backing store has received the item, with an empty payload. *)
Lemma store_empty_data_counterexample :
  fst (Connector.store "alice" [] sampleWorld) = Ok sampleId
  /\ calls (snd (Connector.store "alice" [] sampleWorld))
     = [SetCall (ImmutableItem.mk sampleRawId "alice" EmptyString)].
Proof.
  split; reflexivity.
Qed.

(** The raw id [store] draws is a segment, so the identifier it returns
    parses back to this backend and that raw id. *)
Lemma parse_returned_identifier (bytes : list byte) :
  bytes <> [] ->
  Identifier.parse
    (Identifier.format "immutable" Connector.NAMESPACE (Converter.bytesToHex bytes))
  = Some (Connector.NAMESPACE, Converter.bytesToHex bytes).
Proof.
  intros Hbytes. apply parse_tryParseExact.
  eexists. split; [|split].
  - apply tryParseExact_format; try reflexivity; try discriminate.
    generalize (bytesToHex_is_hex bytes). apply forallb_weaken, is_hex_nssChar.
  - reflexivity.
  - apply namespaceSpecific_format.
Qed.

(** C3: for every non-empty owner and every byte sequence [data] (empty or
    not), against a working storage, [get] applied to the identifier that
    [store(owner, data)] returns gives back exactly [data]. *)
Theorem store_then_get (owner : string) (data : list byte) (w : World) :
  owner <> EmptyString ->
  outage w = None ->
  exists id w1 w2,
    Connector.store owner data w = (Ok id, w1)
    /\ Connector.get id w1 = (Ok data, w2).
Proof.
  intros Howner Hw.
  pose proof (store_run owner data w Howner Hw) as Hstore. cbv zeta in Hstore.
  set (hex := Converter.bytesToHex (map (entropy w) (seq (drawn w) 32))) in *.
  pose proof (parse_returned_identifier _ (random_bytes_not_nil w)) as Hparse.
  fold hex in Hparse.
  apply parse_tryParseExact in Hparse as (u & Hu & Hm & Hk).
  eexists _, _, _. split; [exact Hstore|].
  rewrite (get_lookup _ _ _ Hu Hm), Hk.
  cbn [outage entities withEntities withCall withDrawn]. rewrite Hw.
  rewrite lookup_insert_eq. cbn [ImmutableItem.data].
  rewrite base64_roundtrip. reflexivity.
Qed.

Lemma store_then_get_witness :
  "alice" <> EmptyString
  /\ outage sampleWorld = None
  /\ exists id w1 w2,
       Connector.store "alice" samplePayload sampleWorld = (Ok id, w1)
       /\ Connector.get id w1 = (Ok samplePayload, w2).
Proof.
  split; [discriminate|]. split; [reflexivity|].
  apply (store_then_get "alice" samplePayload sampleWorld); [discriminate|reflexivity].
Defined.

(** C5: for every syntactically valid identifier whose method tag is not
    ["entity-storage"], [get] fails with the ["namespaceMismatch"] error
    (the specification's NamespaceMismatchError, not NotFoundError) and
    leaves the world as it was: the backing store receives no call. *)
Theorem get_other_namespace (id method rawId : string) (w : World) :
  Identifier.parse id = Some (method, rawId) ->
  method <> Connector.NAMESPACE ->
  let mismatch :=
    GeneralError Connector.CLASS_NAME "namespaceMismatch"
      [("namespace", Connector.NAMESPACE); ("id", id)] None in
  Connector.get id w = (Err mismatch, w)
  /\ calls (snd (Connector.get id w)) = calls w
  /\ ErrorKind.classify mismatch = ErrorKind.NamespaceMismatch.
Proof.
  intros Hparse Hne mismatch.
  apply parse_tryParseExact in Hparse as (u & Hu & <- & _).
  rewrite (get_mismatch _ _ w Hu Hne). repeat split.
Qed.

Lemma get_other_namespace_witness :
  Identifier.parse "immutable:other-method:00ff" = Some ("other-method", "00ff")
  /\ "other-method" <> Connector.NAMESPACE
  /\ Connector.get "immutable:other-method:00ff" storedWorld
     = (Err (GeneralError Connector.CLASS_NAME "namespaceMismatch"
               [("namespace", Connector.NAMESPACE); ("id", "immutable:other-method:00ff")]
               None), storedWorld).
Proof.
  split; [reflexivity|]. split; [discriminate|].
  apply (get_other_namespace "immutable:other-method:00ff" "other-method" "00ff" storedWorld);
    [reflexivity|discriminate].
Defined.

(** C6: formatting and parsing round-trip: for every valid triple
    (namespace, method, rawId), parsing the formatted text
    ["{namespace}:{method}:{rawId}"] yields exactly the method tag and the
    raw id. *)
Theorem parse_format (namespace method rawId : string) :
  Identifier.validTriple namespace method rawId = true ->
  Identifier.parse (Identifier.format namespace method rawId) = Some (method, rawId).
Proof.
  unfold Identifier.validTriple, Identifier.segment. intros H.
  apply andb_prop in H as [H Hraw]. apply andb_prop in H as [H Hmethod].
  apply andb_prop in H as [Hnid Hurn].
  apply andb_prop in Hmethod as [Hmethod Hmfree].
  apply andb_prop in Hmethod as [Hmvalue Hmchars].
  apply andb_prop in Hraw as [Hraw _]. apply andb_prop in Hraw as [_ Hrchars].
  apply negb_true_iff, String.eqb_neq in Hurn.
  apply parse_tryParseExact. eexists. split; [|split].
  - apply tryParseExact_format; assumption.
  - reflexivity.
  - apply namespaceSpecific_format.
Qed.

Lemma parse_format_witness :
  Identifier.validTriple "immutable" "entity-storage" sampleRawId = true
  /\ Identifier.parse sampleId = Some ("entity-storage", sampleRawId).
Proof.
  split; [reflexivity|].
  exact (parse_format "immutable" "entity-storage" sampleRawId eq_refl).
Defined.

(** C7: for every successful [store(owner, data)], the identifier returned
    is ["immutable:entity-storage:<specificId>"], where the specific id is
    the hex encoding of the 32 bytes drawn from the random source, has
    exactly 64 hexadecimal characters, and is the key under which the item
    was persisted. *)
Theorem store_identifier_is_canonical
    (owner : string) (data : list byte) (w w' : World) (id : string) :
  Connector.store owner data w = (Ok id, w') ->
  let randomBytes := map (entropy w) (seq (drawn w) 32) in
  let specificId := Converter.bytesToHex randomBytes in
  fst (RandomHelper.generate 32 w) = Ok randomBytes
  /\ length randomBytes = 32
  /\ id = "immutable:entity-storage:" +:+ specificId
  /\ String.length specificId = 64
  /\ string_forallb is_hex specificId = true
  /\ entities w' !! specificId
     = Some (ImmutableItem.mk specificId owner (Converter.bytesToBase64 data)).
Proof.
  intros Hstore randomBytes specificId.
  destruct (store_success _ _ _ _ _ Hstore) as [Howner Hw].
  rewrite (store_run owner data w Howner Hw) in Hstore.
  fold randomBytes in Hstore. fold specificId in Hstore.
  injection Hstore as Hid Hw'.
  assert (Hlen : length randomBytes = 32)
    by (subst randomBytes; rewrite length_map, length_seq; reflexivity).
  split; [reflexivity|]. split; [exact Hlen|]. split; [|split; [|split]].
  - symmetry. exact Hid.
  - subst specificId. rewrite bytesToHex_length, Hlen. reflexivity.
  - apply bytesToHex_is_hex.
  - rewrite <- Hw'. cbn [entities withEntities]. apply lookup_insert_eq.
Qed.

Lemma store_identifier_is_canonical_witness :
  Connector.store "alice" samplePayload sampleWorld = (Ok sampleId, storedWorld)
  /\ String.length sampleRawId = 64
  /\ entities storedWorld !! sampleRawId
     = Some (ImmutableItem.mk sampleRawId "alice" "AQI=").
Proof.
  split; [reflexivity|].
  destruct (store_identifier_is_canonical "alice" samplePayload sampleWorld storedWorld
              sampleId eq_refl) as (_ & _ & _ & Hlen & _ & Hkey).
  split; [exact Hlen|exact Hkey].
Defined.

(** An entity leaves the storage only through a successful [remove] of an
    identifier of this backend that names it. *)
Lemma stored_left_only_by_remove (op : Operation) (w : World) (k : string) :
  is_Some (entities w !! k) ->
  entities (perform op w) !! k = None ->
  exists controller id,
    op = Remove controller id
    /\ fst (Connector.remove controller id w) = Ok tt
    /\ Identifier.parse id = Some (Connector.NAMESPACE, k).
Proof.
  intros Hk Hgone. destruct op as [controller data|id|controller id]; cbn [perform] in Hgone.
  - pose proof (store_keeps controller data w k Hk) as [x Hx]. congruence.
  - rewrite get_entities in Hgone. destruct Hk as [x Hx]. congruence.
  - destruct (remove_entities controller id w)
      as [Hsame|(rawId & item & Hparse & _ & _ & Hok & Hdel)].
    + rewrite Hsame in Hgone. destruct Hk as [x Hx]. congruence.
    + exists controller, id. repeat split; [exact Hok|].
      rewrite Hdel in Hgone. destruct (decide (rawId = k)) as [->|Hne]; [exact Hparse|].
      rewrite lookup_delete_ne in Hgone by exact Hne.
      destruct Hk as [x Hx]. congruence.
Qed.

(** C8 (as the code has it): for every record of owner A, one
    [remove(A, identifier)] succeeds and leaves the record absent; a [get]
    of the identifier then fails with the generic ["gettingFailed"] error
    and a second [remove(A, identifier)] with the generic
    ["removingFailed"] error, each wrapping the [NotFoundError] as its
    cause; and no operation but a successful [remove] takes a record out
    of the storage. *)
Theorem remove_then_absent
    (owner id rawId : string) (item : ImmutableItem.t) (w : World) :
  Identifier.parse id = Some (Connector.NAMESPACE, rawId) ->
  outage w = None ->
  entities w !! rawId = Some item ->
  ImmutableItem.controller item = owner ->
  owner <> EmptyString ->
  let notFound := NotFoundError Connector.CLASS_NAME "immutableStorageNotFound" in
  exists w1,
    Connector.remove owner id w = (Ok tt, w1)
    /\ entities w1 !! rawId = None
    /\ fst (Connector.get id w1)
       = Err (GeneralError Connector.CLASS_NAME "gettingFailed" [] (Some notFound))
    /\ fst (Connector.remove owner id w1)
       = Err (GeneralError Connector.CLASS_NAME "removingFailed" [] (Some notFound))
    /\ forall (op : Operation) (w0 : World) (k : string),
         is_Some (entities w0 !! k) ->
         entities (perform op w0) !! k = None ->
         exists controller id',
           op = Remove controller id'
           /\ fst (Connector.remove controller id' w0) = Ok tt
           /\ Identifier.parse id' = Some (Connector.NAMESPACE, k).
Proof.
  intros Hparse Hw Hitem Hctl Howner notFound.
  apply parse_tryParseExact in Hparse as (u & Hu & Hm & <-).
  set (k := Urn.namespaceSpecific 1 u) in *.
  set (w1 := withEntities (delete k) (withCall (RemoveCall k) (withCall (GetCall k) w))).
  assert (Hw1 : outage w1 = None) by exact Hw.
  assert (Hgone : entities w1 !! k = None) by apply lookup_delete_eq.
  exists w1. split; [|split; [exact Hgone|split; [|split]]].
  - rewrite (remove_lookup _ _ _ w Howner Hu Hm Hw). fold k. rewrite Hitem, Hctl.
    rewrite String.eqb_refl. reflexivity.
  - rewrite (get_lookup _ _ w1 Hu Hm). fold k. rewrite Hw1, Hgone. reflexivity.
  - rewrite (remove_lookup _ _ _ w1 Howner Hu Hm Hw1). fold k. rewrite Hgone.
    reflexivity.
  - exact stored_left_only_by_remove.
Qed.

Lemma remove_then_absent_witness :
  Connector.store "alice" samplePayload sampleWorld = (Ok sampleId, storedWorld)
  /\ exists w1,
       Connector.remove "alice" sampleId storedWorld = (Ok tt, w1)
       /\ entities w1 !! sampleRawId = None
       /\ fst (Connector.remove "alice" sampleId w1)
          = Err (GeneralError Connector.CLASS_NAME "removingFailed" []
                   (Some (NotFoundError Connector.CLASS_NAME "immutableStorageNotFound"))).
Proof.
  split; [reflexivity|].
  destruct (remove_then_absent "alice" sampleId sampleRawId
              (ImmutableItem.mk sampleRawId "alice" "AQI=") storedWorld
              eq_refl eq_refl eq_refl eq_refl)
    as (w1 & Hremove & Hgone & _ & Hagain & _); [discriminate|].
  exists w1. repeat split; assumption.
Defined.

(** C8 fails as stated: after the owner's [remove], the error of [get]
    that reaches the caller is the generic ["gettingFailed"] one, whose
    kind is not [NotFound]. *)
Lemma remove_then_get_counterexample :
  Connector.store "alice" samplePayload sampleWorld = (Ok sampleId, storedWorld)
  /\ fst (Connector.remove "alice" sampleId storedWorld) = Ok tt
  /\ fst (Connector.get sampleId (snd (Connector.remove "alice" sampleId storedWorld)))
     = Err (GeneralError Connector.CLASS_NAME "gettingFailed" []
              (Some (NotFoundError Connector.CLASS_NAME "immutableStorageNotFound")))
  /\ ErrorKind.classify
       (GeneralError Connector.CLASS_NAME "gettingFailed" []
          (Some (NotFoundError Connector.CLASS_NAME "immutableStorageNotFound")))
     <> ErrorKind.NotFound.
Proof.
  repeat split; try reflexivity. discriminate.
Qed.

(** C9: [get] performs no ownership check.  For every stored record and
    every caller, whoever the record's controller is, [get(identifier)]
    returns the payload (it takes the identifier alone); the same caller's
    [remove] goes through only when the caller is the controller. *)
Theorem get_needs_no_ownership
    (caller id rawId : string) (payload : list byte)
    (item : ImmutableItem.t) (w : World) :
  Identifier.parse id = Some (Connector.NAMESPACE, rawId) ->
  outage w = None ->
  entities w !! rawId = Some item ->
  ImmutableItem.data item = Converter.bytesToBase64 payload ->
  Connector.get id w = (Ok payload, withCall (GetCall rawId) w)
  /\ fst (Connector.remove caller id w)
     = if Is.stringValue caller then
         if String.eqb (ImmutableItem.controller item) caller then Ok tt
         else Err (GeneralError Connector.CLASS_NAME "removingFailed" []
                     (Some (GeneralError Connector.CLASS_NAME "notControllerRemove" [] None)))
       else Err (GuardError Connector.CLASS_NAME "guard.stringEmpty" "controller").
Proof.
  intros Hparse Hw Hitem Hdata.
  apply parse_tryParseExact in Hparse as (u & Hu & Hm & <-).
  split.
  - rewrite (get_lookup _ _ w Hu Hm), Hw, Hitem, Hdata, base64_roundtrip.
    reflexivity.
  - destruct (String.eqb_spec caller EmptyString) as [->|Hcaller].
    + reflexivity.
    + rewrite (remove_lookup _ _ _ w Hcaller Hu Hm Hw), Hitem.
      unfold Is.stringValue. apply String.eqb_neq in Hcaller. rewrite Hcaller.
      destruct (String.eqb _ caller); reflexivity.
Qed.

Lemma get_needs_no_ownership_witness :
  Connector.store "alice" samplePayload sampleWorld = (Ok sampleId, storedWorld)
  /\ fst (Connector.get sampleId storedWorld) = Ok samplePayload
  /\ fst (Connector.remove "bob" sampleId storedWorld)
     = Err (GeneralError Connector.CLASS_NAME "removingFailed" []
              (Some (GeneralError Connector.CLASS_NAME "notControllerRemove" [] None))).
Proof.
  split; [reflexivity|].
  destruct (get_needs_no_ownership "bob" sampleId sampleRawId samplePayload
              (ImmutableItem.mk sampleRawId "alice" "AQI=") storedWorld
              eq_refl eq_refl eq_refl eq_refl) as [Hget Hremove].
  rewrite Hget. split; [reflexivity|exact Hremove].
Defined.

(** C10: the identifier [store] returns depends on the random source
    only.  Two [store] calls that draw the same random bytes return the
    same identifier, whatever their controllers and data. *)
Theorem store_identifier_from_random_only
    (controller1 controller2 : string) (data1 data2 : list byte) (w1 w2 : World) :
  controller1 <> EmptyString ->
  controller2 <> EmptyString ->
  outage w1 = None ->
  outage w2 = None ->
  fst (RandomHelper.generate 32 w1) = fst (RandomHelper.generate 32 w2) ->
  exists id,
    fst (Connector.store controller1 data1 w1) = Ok id
    /\ fst (Connector.store controller2 data2 w2) = Ok id.
Proof.
  intros Hc1 Hc2 Hw1 Hw2 Hrandom.
  assert (Hbytes : map (entropy w1) (seq (drawn w1) 32)
                   = map (entropy w2) (seq (drawn w2) 32))
    by (unfold RandomHelper.generate in Hrandom; cbn [fst] in Hrandom; congruence).
  rewrite (store_run controller1 data1 w1 Hc1 Hw1).
  rewrite (store_run controller2 data2 w2 Hc2 Hw2).
  cbn [fst]. rewrite Hbytes. eauto.
Qed.

Lemma store_identifier_from_random_only_witness :
  fst (RandomHelper.generate 32 sampleWorld)
  = fst (RandomHelper.generate 32 (withCall (GetCall "00") sampleWorld))
  /\ exists id,
       fst (Connector.store "alice" samplePayload sampleWorld) = Ok id
       /\ fst (Connector.store "bob" [Byte.xff] (withCall (GetCall "00") sampleWorld)) = Ok id.
Proof.
  split; [reflexivity|].
  apply (store_identifier_from_random_only "alice" "bob" samplePayload [Byte.xff]
           sampleWorld (withCall (GetCall "00") sampleWorld));
    first [discriminate|reflexivity].
Defined.

(** * Further properties of the connector and the client *)

(** ** Every outcome of the three operations *)

Section Outcomes.

Import Connector.

Lemma store_outcome (controller : string) (data : list byte) (w : World) :
  store controller data w
  = if Is.stringValue controller then
      match outage w with
      | None =>
          (Ok (Identifier.format "immutable" NAMESPACE (Converter.bytesToHex (nextRandom w))),
           withEntities (insert (Converter.bytesToHex (nextRandom w))
                           (writtenItem controller data w))
             (withCall (SetCall (writtenItem controller data w)) (withDrawn 32 w)))
      | Some message =>
          (Err (GeneralError CLASS_NAME "storingFailed" []
                  (Some (ThrownError EntityStorage.CLASS_NAME message))),
           withCall (SetCall (writtenItem controller data w)) (withDrawn 32 w))
      end
    else (Err (GuardError CLASS_NAME "guard.stringEmpty" "controller"), w).
Proof.
  destruct (Is.stringValue controller) eqn:Hc.
  - destruct (outage w) as [message|] eqn:Hw.
    + unfold store, bind, lift, tryCatch, Guards.stringValue, Guards.uint8Array.
      rewrite Hc.
      unfold RandomHelper.generate, EntityStorage.set, EntityStorage.receive, bind.
      cbn [outage withDrawn]. rewrite Hw. reflexivity.
    + apply store_run; [|exact Hw].
      intros ->. discriminate Hc.
  - unfold store, bind, lift, Guards.stringValue. rewrite Hc. reflexivity.
Qed.

(** What [get] and [remove] do once the identifier has parsed. *)
Lemma guard_outcome (source property id : string) :
  Urn.guard source property id
  = if Is.stringValue id then
      match Urn.tryParseExact id with
      | Some _ => Ok tt
      | None => Err (GuardError source "guard.urn" property)
      end
    else Err (GuardError source "guard.stringEmpty" property).
Proof.
  unfold Urn.guard, Urn.validate, Guards.stringValue.
  destruct (Is.stringValue id); [|reflexivity]. simpl.
  destruct (Urn.tryParseExact id); reflexivity.
Qed.

Lemma get_outcome (id : string) (w : World) :
  get id w
  = if Is.stringValue id then
      match Urn.tryParseExact id with
      | None => (Err (GuardError CLASS_NAME "guard.urn" "id"), w)
      | Some u =>
          if String.eqb (Urn.namespaceMethod u) NAMESPACE then
            (match outage w with
             | Some message =>
                 Err (GeneralError CLASS_NAME "gettingFailed" []
                        (Some (ThrownError EntityStorage.CLASS_NAME message)))
             | None =>
                 match entities w !! Urn.namespaceSpecific 1 u with
                 | None =>
                     Err (GeneralError CLASS_NAME "gettingFailed" []
                            (Some (NotFoundError CLASS_NAME "immutableStorageNotFound")))
                 | Some item =>
                     match Converter.base64ToBytes (ImmutableItem.data item) with
                     | Some bytes => Ok bytes
                     | None =>
                         Err (GeneralError CLASS_NAME "gettingFailed" []
                                (Some (ThrownError "Converter" "base64ToBytes")))
                     end
                 end
             end, withCall (GetCall (Urn.namespaceSpecific 1 u)) w)
          else
            (Err (GeneralError CLASS_NAME "namespaceMismatch"
                    [("namespace", NAMESPACE); ("id", id)] None), w)
      end
    else (Err (GuardError CLASS_NAME "guard.stringEmpty" "id"), w).
Proof.
  destruct (Urn.tryParseExact id) as [u|] eqn:Hu.
  - assert (Hid : Is.stringValue id = true).
    { unfold Urn.tryParseExact in Hu. destruct (Is.stringValue id); [reflexivity|discriminate]. }
    rewrite Hid.
    destruct (String.eqb_spec (Urn.namespaceMethod u) NAMESPACE) as [Hm|Hm].
    + apply (get_lookup _ _ w Hu Hm).
    + apply (get_mismatch _ _ w Hu Hm).
  - unfold get, bind, lift. rewrite guard_outcome, Hu.
    destruct (Is.stringValue id); reflexivity.
Qed.

Lemma remove_outcome (controller id : string) (w : World) :
  remove controller id w
  = if Is.stringValue controller then
      if Is.stringValue id then
        match Urn.tryParseExact id with
        | None => (Err (GuardError CLASS_NAME "guard.urn" "id"), w)
        | Some u =>
            if String.eqb (Urn.namespaceMethod u) NAMESPACE then
              let k := Urn.namespaceSpecific 1 u in
              match outage w with
              | Some message =>
                  (Err (GeneralError CLASS_NAME "removingFailed" []
                          (Some (ThrownError EntityStorage.CLASS_NAME message))),
                   withCall (GetCall k) w)
              | None =>
                  match entities w !! k with
                  | None =>
                      (Err (GeneralError CLASS_NAME "removingFailed" []
                              (Some (NotFoundError CLASS_NAME "immutableStorageNotFound"))),
                       withCall (GetCall k) w)
                  | Some item =>
                      if String.eqb (ImmutableItem.controller item) controller then
                        (Ok tt,
                         withEntities (delete k)
                           (withCall (RemoveCall k) (withCall (GetCall k) w)))
                      else
                        (Err (GeneralError CLASS_NAME "removingFailed" []
                                (Some (GeneralError CLASS_NAME "notControllerRemove" [] None))),
                         withCall (GetCall k) w)
                  end
              end
            else
              (Err (GeneralError CLASS_NAME "namespaceMismatch"
                      [("namespace", NAMESPACE); ("id", id)] None), w)
        end
      else (Err (GuardError CLASS_NAME "guard.stringEmpty" "id"), w)
    else (Err (GuardError CLASS_NAME "guard.stringEmpty" "controller"), w).
Proof.
  destruct (Is.stringValue controller) eqn:Hc.
  2:{ unfold remove, bind, lift, Guards.stringValue. rewrite Hc. reflexivity. }
  assert (Hne : controller <> EmptyString) by (intros ->; discriminate Hc).
  destruct (Urn.tryParseExact id) as [u|] eqn:Hu.
  - assert (Hid : Is.stringValue id = true).
    { unfold Urn.tryParseExact in Hu. destruct (Is.stringValue id); [reflexivity|discriminate]. }
    rewrite Hid.
    destruct (String.eqb_spec (Urn.namespaceMethod u) NAMESPACE) as [Hm|Hm].
    + cbv zeta. destruct (outage w) as [message|] eqn:Hw.
      * unfold remove, bind, lift, Guards.stringValue. rewrite Hc.
        rewrite (tryParseExact_guard _ _ _ _ Hu), (tryParseExact_fromValidString _ _ Hu).
        rewrite Hm, String.eqb_refl. cbn [negb ret].
        unfold tryCatch, bind, EntityStorage.get, EntityStorage.receive, bind.
        rewrite Hw. reflexivity.
      * apply (remove_lookup _ _ _ w Hne Hu Hm Hw).
    + unfold remove, bind, lift, Guards.stringValue. rewrite Hc.
      rewrite (tryParseExact_guard _ _ _ _ Hu), (tryParseExact_fromValidString _ _ Hu).
      apply String.eqb_neq in Hm. rewrite Hm. reflexivity.
  - unfold remove, bind, lift, Guards.stringValue. rewrite Hc.
    rewrite guard_outcome, Hu.
    destruct (Is.stringValue id); reflexivity.
Qed.

End Outcomes.

(** ** Hexadecimal ids are one to one *)

Lemma hexDigit_inj (n m : nat) :
  n < 16 -> m < 16 -> Converter.hexDigit n = Converter.hexDigit m -> n = m.
Proof.
  intros Hn Hm H.
  do 16 (destruct n as [|n];
         [do 16 (destruct m as [|m]; [first [reflexivity|discriminate H]|]); lia|]).
  lia.
Qed.

Lemma to_nat_inj (a b : byte) : Byte.to_nat a = Byte.to_nat b -> a = b.
Proof.
  intros H. pose proof (Byte.of_to_nat a) as Ha. rewrite H, Byte.of_to_nat in Ha.
  congruence.
Qed.

Lemma String_inj (c d : ascii) (s t : string) :
  String c s = String d t -> c = d /\ s = t.
Proof. intros [= -> ->]. split; reflexivity. Qed.

Lemma bytesToHex_inj (a b : list byte) :
  Converter.bytesToHex a = Converter.bytesToHex b -> a = b.
Proof.
  revert b. induction a as [|x a IH]; intros [|y b] H; try discriminate H.
  - reflexivity.
  - cbn [Converter.bytesToHex] in H.
    apply String_inj in H as [Hhi H]. apply String_inj in H as [Hlo Hrest].
    pose proof (Byte.to_nat_bounded x) as Hx.
    pose proof (Byte.to_nat_bounded y) as Hy.
    apply hexDigit_inj in Hhi;
      [|apply Nat.Div0.div_lt_upper_bound; lia|apply Nat.Div0.div_lt_upper_bound; lia].
    apply hexDigit_inj in Hlo; [|apply Nat.mod_upper_bound; lia|apply Nat.mod_upper_bound; lia].
    f_equal; [|apply IH, Hrest].
    apply to_nat_inj.
    rewrite (Nat.div_mod_eq (Byte.to_nat x) 16), (Nat.div_mod_eq (Byte.to_nat y) 16).
    rewrite Hhi, Hlo. reflexivity.
Qed.

Lemma append_inj (p a b : string) : p +:+ a = p +:+ b -> a = b.
Proof.
  induction p as [|c p IH]; cbn [String.append]; intros H; [exact H|].
  apply String_inj in H as [_ H]. auto.
Qed.

Lemma format_inj (namespace method a b : string) :
  Identifier.format namespace method a = Identifier.format namespace method b -> a = b.
Proof.
  unfold Identifier.format. intros H.
  do 4 apply append_inj in H. exact H.
Qed.

(** ** [store] *)

(** A successful [store], taken apart. *)
Lemma store_ok_inv (controller : string) (data : list byte) (w w' : World) (id : string) :
  Connector.store controller data w = (Ok id, w') ->
  controller <> EmptyString
  /\ outage w = None
  /\ id = Identifier.format "immutable" Connector.NAMESPACE (Converter.bytesToHex (nextRandom w))
  /\ w' = withEntities (insert (Converter.bytesToHex (nextRandom w))
                          (writtenItem controller data w))
            (withCall (SetCall (writtenItem controller data w)) (withDrawn 32 w)).
Proof.
  rewrite store_outcome. intros H.
  destruct (Is.stringValue controller) eqn:Hc; [|discriminate H].
  destruct (outage w); [discriminate H|].
  injection H as <- <-. repeat split.
  intros ->. discriminate Hc.
Qed.

(** X1: [store] succeeds exactly when the controller is named and the
    storage works; the data never makes it fail. *)
Theorem store_succeeds_iff (controller : string) (data : list byte) (w : World) :
  (exists id w', Connector.store controller data w = (Ok id, w'))
  <-> controller <> EmptyString /\ outage w = None.
Proof.
  split.
  - intros (id & w' & H). apply store_ok_inv in H as (Hc & Hw & _). auto.
  - intros [Hc Hw]. rewrite (store_run controller data w Hc Hw). eauto.
Qed.

(** X2: against a failing storage, [store] by a named controller fails with
    the generic ["storingFailed"] error wrapping the storage's error.  The
    32 random bytes are spent and the storage has received the [set], but
    no entity is written. *)
Theorem store_outage
    (controller message : string) (data : list byte) (w : World) :
  controller <> EmptyString ->
  outage w = Some message ->
  let w' := withCall (SetCall (writtenItem controller data w)) (withDrawn 32 w) in
  Connector.store controller data w
  = (Err (GeneralError Connector.CLASS_NAME "storingFailed" []
            (Some (ThrownError EntityStorage.CLASS_NAME message))), w')
  /\ entities w' = entities w
  /\ drawn w' = drawn w + 32.
Proof.
  intros Hc Hw w'. rewrite store_outcome, Hw.
  apply String.eqb_neq in Hc. unfold Is.stringValue. rewrite Hc.
  repeat split.
Qed.

Lemma store_outage_witness :
  let down := mkWorld ∅ [] (Some "down") (entropy sampleWorld) 0 in
  "alice" <> EmptyString
  /\ outage down = Some "down"
  /\ fst (Connector.store "alice" samplePayload down)
     = Err (GeneralError Connector.CLASS_NAME "storingFailed" []
              (Some (ThrownError EntityStorage.CLASS_NAME "down")))
  /\ entities (snd (Connector.store "alice" samplePayload down)) = ∅.
Proof.
  cbv zeta. split; [discriminate|]. split; [reflexivity|].
  destruct (store_outage "alice" "down" samplePayload
              (mkWorld ∅ [] (Some "down") (entropy sampleWorld) 0))
    as (Hstore & Hentities & _); [discriminate|reflexivity|].
  rewrite Hstore. split; [reflexivity|exact Hentities].
Defined.

(** X3: a successful [store] writes the one entity under the hex id it
    drew and touches no other: every other key reads as before, the
    storage has received exactly one [set], and 32 random bytes are
    spent. *)
Theorem store_frame
    (controller : string) (data : list byte) (w w' : World) (id : string) :
  Connector.store controller data w = (Ok id, w') ->
  let k := Converter.bytesToHex (nextRandom w) in
  entities w' !! k = Some (writtenItem controller data w)
  /\ (forall k', k' <> k -> entities w' !! k' = entities w !! k')
  /\ calls w' = SetCall (writtenItem controller data w) :: calls w
  /\ drawn w' = drawn w + 32
  /\ outage w' = outage w.
Proof.
  intros H k. apply store_ok_inv in H as (_ & _ & _ & ->).
  cbn [entities calls drawn outage withEntities withCall withDrawn]. fold k.
  split; [apply lookup_insert_eq|]. split; [|repeat split].
  intros k' Hk'. apply lookup_insert_ne. congruence.
Qed.

Lemma store_frame_witness :
  Connector.store "alice" samplePayload sampleWorld = (Ok sampleId, storedWorld)
  /\ entities storedWorld !! sampleRawId = Some (ImmutableItem.mk sampleRawId "alice" "AQI=")
  /\ entities storedWorld !! "00" = None
  /\ drawn storedWorld = 32.
Proof.
  split; [reflexivity|].
  destruct (store_frame "alice" samplePayload sampleWorld storedWorld sampleId eq_refl)
    as (Hk & Hothers & _ & Hdrawn & _).
  split; [exact Hk|]. split; [|exact Hdrawn].
  rewrite Hothers; [reflexivity|discriminate].
Defined.

(** X4: two successful [store] calls return the same identifier exactly
    when they drew the same 32 random bytes: the hex id loses nothing of
    them. *)
Theorem store_identifiers_equal_iff
    (controller1 controller2 : string) (data1 data2 : list byte)
    (w1 w1' w2 w2' : World) (id1 id2 : string) :
  Connector.store controller1 data1 w1 = (Ok id1, w1') ->
  Connector.store controller2 data2 w2 = (Ok id2, w2') ->
  id1 = id2 <-> nextRandom w1 = nextRandom w2.
Proof.
  intros H1 H2.
  apply store_ok_inv in H1 as (_ & _ & -> & _).
  apply store_ok_inv in H2 as (_ & _ & -> & _).
  split.
  - intros H. apply format_inj, bytesToHex_inj in H. exact H.
  - intros ->. reflexivity.
Qed.

Lemma store_identifiers_equal_iff_witness :
  Connector.store "alice" samplePayload sampleWorld = (Ok sampleId, storedWorld)
  /\ nextRandom sampleWorld <> nextRandom storedWorld
  /\ fst (Connector.store "bob" samplePayload storedWorld) <> Ok sampleId.
Proof.
  split; [reflexivity|].
  assert (Hne : nextRandom sampleWorld <> nextRandom storedWorld) by discriminate.
  split; [exact Hne|].
  destruct (Connector.store "bob" samplePayload storedWorld) as [[id2|e] w2] eqn:H2;
    [|discriminate].
  intros [= ->]. apply Hne.
  exact (proj1 (store_identifiers_equal_iff "alice" "bob" samplePayload samplePayload
                  sampleWorld storedWorld storedWorld w2 sampleId sampleId eq_refl H2)
           eq_refl).
Defined.

(** [get] of the identifier [store] returns, in any later world. *)
Lemma get_returned_identifier (bytes : list byte) (w : World) :
  bytes <> [] ->
  outage w = None ->
  fst (Connector.get
         (Identifier.format "immutable" Connector.NAMESPACE (Converter.bytesToHex bytes)) w)
  = match entities w !! Converter.bytesToHex bytes with
    | None =>
        Err (GeneralError Connector.CLASS_NAME "gettingFailed" []
               (Some (NotFoundError Connector.CLASS_NAME "immutableStorageNotFound")))
    | Some item =>
        match Converter.base64ToBytes (ImmutableItem.data item) with
        | Some payload => Ok payload
        | None =>
            Err (GeneralError Connector.CLASS_NAME "gettingFailed" []
                   (Some (ThrownError "Converter" "base64ToBytes")))
        end
    end.
Proof.
  intros Hbytes Hw.
  pose proof (parse_returned_identifier bytes Hbytes) as Hparse.
  apply parse_tryParseExact in Hparse as (u & Hu & Hm & Hk).
  rewrite (get_lookup _ _ w Hu Hm), Hk, Hw. reflexivity.
Qed.

(** X5: two [store] calls in a row.  The second draws the next 32 random
    bytes; afterwards the second identifier reads back the second data,
    and the first identifier reads back the first data unless both calls
    drew the same bytes, in which case the first item has been replaced
    and it reads back the second data. *)
Theorem store_twice
    (controller1 controller2 : string) (data1 data2 : list byte)
    (w w1 w2 : World) (id1 id2 : string) :
  Connector.store controller1 data1 w = (Ok id1, w1) ->
  Connector.store controller2 data2 w1 = (Ok id2, w2) ->
  nextRandom w1 = map (entropy w) (seq (drawn w + 32) 32)
  /\ fst (Connector.get id2 w2) = Ok data2
  /\ fst (Connector.get id1 w2) = Ok (if String.eqb id1 id2 then data2 else data1).
Proof.
  intros H1 H2.
  apply store_ok_inv in H1 as (_ & Hw & -> & ->).
  apply store_ok_inv in H2 as (_ & _ & -> & ->).
  set (w1 := withEntities _ (withCall _ (withDrawn 32 w))).
  set (k1 := Converter.bytesToHex (nextRandom w)).
  set (k2 := Converter.bytesToHex (nextRandom w1)).
  split; [reflexivity|].
  assert (Hout : forall f c, outage (withEntities f (withCall c (withDrawn 32 w1))) = None)
    by (intros; exact Hw).
  split.
  - unfold k2. rewrite get_returned_identifier by (discriminate || apply Hout).
    fold k2. cbn [entities withEntities]. rewrite lookup_insert_eq.
    cbn [writtenItem ImmutableItem.data]. rewrite base64_roundtrip. reflexivity.
  - unfold k1. rewrite get_returned_identifier by (discriminate || apply Hout).
    fold k1. cbn [entities withEntities withCall withDrawn].
    destruct (String.eqb_spec (Identifier.format "immutable" Connector.NAMESPACE k1)
                (Identifier.format "immutable" Connector.NAMESPACE k2)) as [Heq|Hne].
    + apply format_inj in Heq. rewrite <- Heq, lookup_insert_eq.
      cbn [writtenItem ImmutableItem.data]. rewrite base64_roundtrip. reflexivity.
    + rewrite lookup_insert_ne by congruence.
      subst w1. cbn [entities withEntities]. fold k1. rewrite lookup_insert_eq.
      cbn [writtenItem ImmutableItem.data]. rewrite base64_roundtrip. reflexivity.
Qed.

Lemma store_twice_witness :
  Connector.store "alice" samplePayload sampleWorld = (Ok sampleId, storedWorld)
  /\ exists id2 w2,
       Connector.store "bob" [Byte.xff] storedWorld = (Ok id2, w2)
       /\ fst (Connector.get id2 w2) = Ok [Byte.xff]
       /\ fst (Connector.get sampleId w2) = Ok samplePayload.
Proof.
  split; [reflexivity|].
  destruct (Connector.store "bob" [Byte.xff] storedWorld) as [[id2|e] w2] eqn:H2;
    [|discriminate].
  exists id2, w2. split; [reflexivity|].
  destruct (store_twice "alice" "bob" samplePayload [Byte.xff]
              sampleWorld storedWorld w2 sampleId id2 eq_refl H2) as (_ & Hget2 & Hget1).
  split; [exact Hget2|].
  rewrite Hget1.
  assert (Hid2 : Ok id2 = fst (Connector.store "bob" [Byte.xff] storedWorld))
    by (rewrite H2; reflexivity).
  vm_compute in Hid2. injection Hid2 as ->. reflexivity.
Defined.

(** ** [get] *)

Lemma tryParseExact_stringValue (id : string) (u : Urn.t) :
  Urn.tryParseExact id = Some u -> Is.stringValue id = true.
Proof.
  unfold Urn.tryParseExact. destruct (Is.stringValue id); [reflexivity|discriminate].
Qed.

(** X6: [get] returns a payload exactly when the identifier parses to this
    backend's namespace and a raw id, the storage works, an item is stored
    under the raw id and its data decodes to that payload. *)
Theorem get_succeeds_iff (id : string) (payload : list byte) (w : World) :
  (exists w', Connector.get id w = (Ok payload, w'))
  <-> exists rawId item,
        Identifier.parse id = Some (Connector.NAMESPACE, rawId)
        /\ outage w = None
        /\ entities w !! rawId = Some item
        /\ Converter.base64ToBytes (ImmutableItem.data item) = Some payload.
Proof.
  rewrite get_outcome. split.
  - intros (w' & H).
    destruct (Is.stringValue id); [|discriminate H].
    destruct (Urn.tryParseExact id) as [u|] eqn:Hu; [|discriminate H].
    destruct (String.eqb_spec (Urn.namespaceMethod u) Connector.NAMESPACE) as [Hm|Hm];
      [|discriminate H].
    destruct (outage w); [discriminate H|].
    destruct (entities w !! _) as [item|] eqn:Hitem; [|discriminate H].
    destruct (Converter.base64ToBytes _) as [bytes|] eqn:Hdec; [|discriminate H].
    injection H as <- _. exists (Urn.namespaceSpecific 1 u), item.
    split; [apply parse_tryParseExact; eauto|]. auto.
  - intros (rawId & item & Hparse & Hw & Hitem & Hdec).
    apply parse_tryParseExact in Hparse as (u & Hu & Hm & <-).
    rewrite (tryParseExact_stringValue _ _ Hu), Hu, Hm, String.eqb_refl, Hw, Hitem, Hdec.
    eauto.
Qed.

Lemma get_is_read_only_aux (id : string) (w : World) :
  entities (snd (Connector.get id w)) = entities w
  /\ outage (snd (Connector.get id w)) = outage w.
Proof.
  rewrite get_outcome.
  destruct (Is.stringValue id); [|split; reflexivity].
  destruct (Urn.tryParseExact id) as [u|]; [|split; reflexivity].
  destruct (String.eqb _ _); split; reflexivity.
Qed.

(** X7: [get] reads and never writes.  Whatever the identifier and the
    world, the entities, the random source and the state of the storage
    are as before, and the storage has received either nothing or the one
    lookup. *)
Theorem get_is_read_only (id : string) (w : World) :
  entities (snd (Connector.get id w)) = entities w
  /\ drawn (snd (Connector.get id w)) = drawn w
  /\ outage (snd (Connector.get id w)) = outage w
  /\ (calls (snd (Connector.get id w)) = calls w
      \/ exists rawId, calls (snd (Connector.get id w)) = GetCall rawId :: calls w).
Proof.
  rewrite get_outcome.
  destruct (Is.stringValue id); [|repeat split; left; reflexivity].
  destruct (Urn.tryParseExact id) as [u|]; [|repeat split; left; reflexivity].
  destruct (String.eqb _ _); [|repeat split; left; reflexivity].
  repeat split. right. eexists. reflexivity.
Qed.

(** The result of [get] depends on the entities and the state of the
    storage only. *)
Lemma get_result_depends (id : string) (w1 w2 : World) :
  entities w1 = entities w2 ->
  outage w1 = outage w2 ->
  fst (Connector.get id w1) = fst (Connector.get id w2).
Proof.
  intros He Ho. rewrite !get_outcome.
  destruct (Is.stringValue id); [|reflexivity].
  destruct (Urn.tryParseExact id) as [u|]; [|reflexivity].
  destruct (String.eqb _ _); [|reflexivity].
  cbn [fst]. rewrite He, Ho. reflexivity.
Qed.

(** X8: a record can be read any number of times.  After any sequence of
    [get] calls, on any identifiers, a [get] gives the result it would
    have given before them. *)
Theorem get_after_gets (ids : list string) (id : string) (w : World) :
  fst (Connector.get id (run (map Get ids) w)) = fst (Connector.get id w).
Proof.
  revert w. induction ids as [|id' ids IH]; intros w; [reflexivity|].
  cbn [map run fold_left]. fold (run (map Get ids) (perform (Get id') w)).
  rewrite IH. cbn [perform].
  destruct (get_is_read_only_aux id' w) as (He & Ho).
  apply get_result_depends; assumption.
Qed.

(** ** Identifiers that are refused *)

(** X9: a non-empty identifier that is not a urn is refused by [get] and by
    [remove] with the [GuardError] ["guard.urn"] on [id], in the world as
    it was: the storage receives no call. *)
Theorem malformed_identifier_is_refused (controller id : string) (w : World) :
  id <> EmptyString ->
  Urn.tryParseExact id = None ->
  controller <> EmptyString ->
  Connector.get id w = (Err (GuardError Connector.CLASS_NAME "guard.urn" "id"), w)
  /\ Connector.remove controller id w
     = (Err (GuardError Connector.CLASS_NAME "guard.urn" "id"), w).
Proof.
  intros Hid Hu Hc. rewrite get_outcome, remove_outcome, Hu.
  apply String.eqb_neq in Hid, Hc. unfold Is.stringValue. rewrite Hid, Hc.
  split; reflexivity.
Qed.

Lemma malformed_identifier_is_refused_witness :
  "not-a-valid-id" <> EmptyString
  /\ Urn.tryParseExact "not-a-valid-id" = None
  /\ Connector.get "not-a-valid-id" storedWorld
     = (Err (GuardError Connector.CLASS_NAME "guard.urn" "id"), storedWorld)
  /\ Connector.remove "alice" "not-a-valid-id" storedWorld
     = (Err (GuardError Connector.CLASS_NAME "guard.urn" "id"), storedWorld).
Proof.
  split; [discriminate|]. split; [reflexivity|].
  apply (malformed_identifier_is_refused "alice" "not-a-valid-id" storedWorld);
    first [discriminate|reflexivity].
Defined.

(** A text without a colon is no urn. *)
Lemma cut_free (sep : ascii) (s : string) : free_of sep s = true -> cut sep s = None.
Proof.
  unfold free_of. induction s as [|c s IH]; cbn [cut string_forallb]; [reflexivity|].
  intros H. apply andb_prop in H as [Hc Hs]. apply negb_true_iff in Hc.
  rewrite Hc, (IH Hs). reflexivity.
Qed.

Lemma tryParseExact_needs_colon (id : string) :
  free_of ":" id = true -> Urn.tryParseExact id = None.
Proof.
  intros Hfree. unfold Urn.tryParseExact, Urn.exec, Urn.matchUrn.
  destruct (Is.stringValue id); [|reflexivity].
  rewrite (cut_free _ _ Hfree).
  destruct (startsWith "urn:" id) eqn:Hp; [|reflexivity].
  exfalso. unfold startsWith, free_of in *.
  destruct id as [|a [|b [|c [|d rest]]]]; cbn in Hp; try discriminate;
    repeat match type of Hp with
           | (if ?x then _ else _) = true => destruct x as [e|]; [subst|discriminate]
           end; try discriminate.
Qed.

(** X10: the raw id alone is not an identifier.  A non-empty text without
    a colon, such as the bare hex id of a stored record, is refused by
    [get] with the [GuardError] ["guard.urn"], and nothing is looked
    up. *)
Theorem get_refuses_bare_raw_id (id : string) (w : World) :
  id <> EmptyString ->
  free_of ":" id = true ->
  Connector.get id w = (Err (GuardError Connector.CLASS_NAME "guard.urn" "id"), w).
Proof.
  intros Hid Hfree. rewrite get_outcome, (tryParseExact_needs_colon _ Hfree).
  apply String.eqb_neq in Hid. unfold Is.stringValue. rewrite Hid. reflexivity.
Qed.

Lemma get_refuses_bare_raw_id_witness :
  is_Some (entities storedWorld !! sampleRawId)
  /\ sampleRawId <> EmptyString
  /\ free_of ":" sampleRawId = true
  /\ Connector.get sampleRawId storedWorld
     = (Err (GuardError Connector.CLASS_NAME "guard.urn" "id"), storedWorld).
Proof.
  split; [eexists; reflexivity|]. split; [discriminate|]. split; [reflexivity|].
  apply (get_refuses_bare_raw_id sampleRawId storedWorld); [discriminate|reflexivity].
Defined.

(** ** [remove] *)

(** X11: [remove] on a valid identifier whose method tag is not this
    backend's fails, like [get], with the ["namespaceMismatch"] error as it
    is, in the world as it was: nothing is looked up and nothing
    removed. *)
Theorem remove_other_namespace (controller id method rawId : string) (w : World) :
  controller <> EmptyString ->
  Identifier.parse id = Some (method, rawId) ->
  method <> Connector.NAMESPACE ->
  Connector.remove controller id w
  = (Err (GeneralError Connector.CLASS_NAME "namespaceMismatch"
            [("namespace", Connector.NAMESPACE); ("id", id)] None), w).
Proof.
  intros Hc Hparse Hm.
  apply parse_tryParseExact in Hparse as (u & Hu & <- & _).
  rewrite remove_outcome, (tryParseExact_stringValue _ _ Hu), Hu.
  apply String.eqb_neq in Hc, Hm. unfold Is.stringValue. rewrite Hc, Hm. reflexivity.
Qed.

Lemma remove_other_namespace_witness :
  "alice" <> EmptyString
  /\ Identifier.parse "immutable:other-method:00ff" = Some ("other-method", "00ff")
  /\ "other-method" <> Connector.NAMESPACE
  /\ Connector.remove "alice" "immutable:other-method:00ff" storedWorld
     = (Err (GeneralError Connector.CLASS_NAME "namespaceMismatch"
               [("namespace", Connector.NAMESPACE); ("id", "immutable:other-method:00ff")]
               None), storedWorld).
Proof.
  split; [discriminate|]. split; [reflexivity|]. split; [discriminate|].
  apply (remove_other_namespace "alice" "immutable:other-method:00ff" "other-method" "00ff"
           storedWorld); first [discriminate|reflexivity].
Defined.

(** X12: [remove] succeeds exactly when the controller is named, the
    identifier parses to this backend's namespace and a raw id, the
    storage works, and the item stored under the raw id has that very
    controller. *)
Theorem remove_succeeds_iff (controller id : string) (w : World) :
  (exists w', Connector.remove controller id w = (Ok tt, w'))
  <-> controller <> EmptyString
      /\ exists rawId item,
           Identifier.parse id = Some (Connector.NAMESPACE, rawId)
           /\ outage w = None
           /\ entities w !! rawId = Some item
           /\ ImmutableItem.controller item = controller.
Proof.
  rewrite remove_outcome. split.
  - intros (w' & H).
    destruct (Is.stringValue controller) eqn:Hc; [|discriminate H].
    split; [intros ->; discriminate Hc|].
    destruct (Is.stringValue id); [|discriminate H].
    destruct (Urn.tryParseExact id) as [u|] eqn:Hu; [|discriminate H].
    destruct (String.eqb_spec (Urn.namespaceMethod u) Connector.NAMESPACE) as [Hm|Hm];
      [|discriminate H].
    cbv zeta in H. destruct (outage w); [discriminate H|].
    destruct (entities w !! _) as [item|] eqn:Hitem; [|discriminate H].
    destruct (String.eqb_spec (ImmutableItem.controller item) controller) as [Hi|Hi];
      [|discriminate H].
    exists (Urn.namespaceSpecific 1 u), item.
    split; [apply parse_tryParseExact; eauto|]. auto.
  - intros (Hc & rawId & item & Hparse & Hw & Hitem & Hi).
    apply parse_tryParseExact in Hparse as (u & Hu & Hm & <-).
    apply String.eqb_neq in Hc. unfold Is.stringValue at 1. rewrite Hc.
    rewrite (tryParseExact_stringValue _ _ Hu), Hu, Hm, String.eqb_refl.
    cbv zeta. rewrite Hw, Hitem, Hi, String.eqb_refl. eauto.
Qed.

(** X13: a successful [remove] deletes the one record its identifier
    names and touches no other: every other key reads as before, no
    random byte is spent, and the storage has received the lookup and
    then the removal. *)
Theorem remove_frame (controller id : string) (w w' : World) :
  Connector.remove controller id w = (Ok tt, w') ->
  exists rawId,
    Identifier.parse id = Some (Connector.NAMESPACE, rawId)
    /\ entities w' !! rawId = None
    /\ (forall k, k <> rawId -> entities w' !! k = entities w !! k)
    /\ calls w' = RemoveCall rawId :: GetCall rawId :: calls w
    /\ drawn w' = drawn w.
Proof.
  rewrite remove_outcome. intros H.
  destruct (Is.stringValue controller); [|discriminate H].
  destruct (Is.stringValue id); [|discriminate H].
  destruct (Urn.tryParseExact id) as [u|] eqn:Hu; [|discriminate H].
  destruct (String.eqb_spec (Urn.namespaceMethod u) Connector.NAMESPACE) as [Hm|Hm];
    [|discriminate H].
  cbv zeta in H. destruct (outage w); [discriminate H|].
  destruct (entities w !! _) as [item|]; [|discriminate H].
  destruct (String.eqb _ controller); [|discriminate H].
  injection H as <-. exists (Urn.namespaceSpecific 1 u).
  split; [apply parse_tryParseExact; eauto|].
  cbn [entities calls drawn withEntities withCall].
  split; [apply lookup_delete_eq|]. split; [|split; reflexivity].
  intros k Hk. apply lookup_delete_ne. congruence.
Qed.

Lemma remove_frame_witness :
  Connector.store "alice" samplePayload sampleWorld = (Ok sampleId, storedWorld)
  /\ exists w',
       Connector.remove "alice" sampleId storedWorld = (Ok tt, w')
       /\ entities w' !! sampleRawId = None
       /\ calls w' = RemoveCall sampleRawId :: GetCall sampleRawId :: calls storedWorld.
Proof.
  split; [reflexivity|].
  exists (snd (Connector.remove "alice" sampleId storedWorld)).
  split; [reflexivity|].
  destruct (remove_frame "alice" sampleId storedWorld
              (snd (Connector.remove "alice" sampleId storedWorld)) eq_refl)
    as (rawId & Hparse & Hgone & _ & Hcalls & _).
  assert (Hraw : rawId = sampleRawId).
  { assert (H : Some (Connector.NAMESPACE, rawId) = Some (Connector.NAMESPACE, sampleRawId))
      by (rewrite <- Hparse; reflexivity).
    congruence. }
  subst rawId. split; assumption.
Defined.

(** X14: [remove] never asks the storage to delete on behalf of anyone
    but the controller of the item.  Whatever the arguments and the world,
    the storage receives nothing, or the lookup alone with the entities
    as before, or the lookup and the removal of an item whose controller
    is the caller. *)
Theorem remove_sends_removal_for_controller_only (controller id : string) (w : World) :
  let w' := snd (Connector.remove controller id w) in
  (calls w' = calls w /\ entities w' = entities w)
  \/ (exists rawId, calls w' = GetCall rawId :: calls w /\ entities w' = entities w)
  \/ (exists rawId item,
        calls w' = RemoveCall rawId :: GetCall rawId :: calls w
        /\ entities w !! rawId = Some item
        /\ ImmutableItem.controller item = controller).
Proof.
  cbv zeta. rewrite remove_outcome.
  destruct (Is.stringValue controller); [|left; split; reflexivity].
  destruct (Is.stringValue id); [|left; split; reflexivity].
  destruct (Urn.tryParseExact id) as [u|]; [|left; split; reflexivity].
  destruct (String.eqb _ Connector.NAMESPACE); [|left; split; reflexivity].
  cbv zeta. right.
  destruct (outage w); [left; eexists; split; reflexivity|].
  destruct (entities w !! _) as [item|] eqn:Hitem; [|left; eexists; split; reflexivity].
  destruct (String.eqb_spec (ImmutableItem.controller item) controller) as [Hc|Hc];
    [|left; eexists; split; reflexivity].
  right. exists (Urn.namespaceSpecific 1 u), item. repeat split; assumption.
Qed.

(** X15: against a failing storage, [get] and [remove] on an identifier
    of this backend fail with their generic errors wrapping the
    storage's error, after the one lookup the storage rejected; nothing
    is removed. *)
Theorem storage_outage_is_wrapped
    (controller id rawId message : string) (w : World) :
  controller <> EmptyString ->
  Identifier.parse id = Some (Connector.NAMESPACE, rawId) ->
  outage w = Some message ->
  let cause := ThrownError EntityStorage.CLASS_NAME message in
  Connector.get id w
  = (Err (GeneralError Connector.CLASS_NAME "gettingFailed" [] (Some cause)),
     withCall (GetCall rawId) w)
  /\ Connector.remove controller id w
     = (Err (GeneralError Connector.CLASS_NAME "removingFailed" [] (Some cause)),
        withCall (GetCall rawId) w).
Proof.
  intros Hc Hparse Hw cause.
  apply parse_tryParseExact in Hparse as (u & Hu & Hm & <-).
  rewrite get_outcome, remove_outcome, (tryParseExact_stringValue _ _ Hu), Hu.
  rewrite Hm, String.eqb_refl. cbv zeta. rewrite Hw.
  apply String.eqb_neq in Hc. unfold Is.stringValue. rewrite Hc.
  split; reflexivity.
Qed.

Lemma storage_outage_is_wrapped_witness :
  let down := mkWorld (entities storedWorld) [] (Some "down") (entropy sampleWorld) 32 in
  Identifier.parse sampleId = Some (Connector.NAMESPACE, sampleRawId)
  /\ outage down = Some "down"
  /\ fst (Connector.get sampleId down)
     = Err (GeneralError Connector.CLASS_NAME "gettingFailed" []
              (Some (ThrownError EntityStorage.CLASS_NAME "down")))
  /\ entities (snd (Connector.remove "alice" sampleId down)) = entities storedWorld.
Proof.
  cbv zeta. split; [reflexivity|]. split; [reflexivity|].
  destruct (storage_outage_is_wrapped "alice" sampleId sampleRawId "down"
              (mkWorld (entities storedWorld) [] (Some "down") (entropy sampleWorld) 32))
    as [Hget Hremove]; [discriminate|reflexivity|reflexivity|].
  rewrite Hget, Hremove. split; reflexivity.
Defined.

(** ** What the identifier's segments are used for *)

(** X16: [get] and [remove] never look at the first segment.  With any
    namespace identifier in place of ["immutable"], an identifier of this
    backend gives the same outcome, in result and in world. *)
Theorem namespace_identifier_is_not_checked
    (namespace controller rawId : string) (w : World) :
  Urn.matchNid namespace = true ->
  namespace <> "urn" ->
  string_forallb Urn.nssChar rawId = true ->
  Connector.get (Identifier.format namespace Connector.NAMESPACE rawId) w
  = Connector.get (Identifier.format "immutable" Connector.NAMESPACE rawId) w
  /\ Connector.remove controller (Identifier.format namespace Connector.NAMESPACE rawId) w
     = Connector.remove controller (Identifier.format "immutable" Connector.NAMESPACE rawId) w.
Proof.
  intros Hnid Hurn Hraw.
  pose proof (tryParseExact_format namespace Connector.NAMESPACE rawId
                Hnid Hurn eq_refl eq_refl eq_refl Hraw) as H1.
  assert (Hnot : "immutable" <> "urn") by discriminate.
  pose proof (tryParseExact_format "immutable" Connector.NAMESPACE rawId
                eq_refl Hnot eq_refl eq_refl eq_refl Hraw) as H2.
  rewrite !get_outcome, !remove_outcome.
  rewrite (tryParseExact_stringValue _ _ H1), (tryParseExact_stringValue _ _ H2), H1, H2.
  split; reflexivity.
Qed.

Lemma namespace_identifier_is_not_checked_witness :
  Urn.matchNid "anything" = true
  /\ "anything" <> "urn"
  /\ fst (Connector.get (Identifier.format "anything" Connector.NAMESPACE sampleRawId)
            storedWorld)
     = Ok samplePayload.
Proof.
  split; [reflexivity|]. split; [discriminate|].
  rewrite (proj1 (namespace_identifier_is_not_checked "anything" "alice" sampleRawId
                    storedWorld eq_refl ltac:(discriminate) eq_refl)).
  reflexivity.
Defined.



(** ** The entities over a history *)

(** [store] leaves the entities alone unless it succeeds. *)
Lemma store_entities (controller : string) (data : list byte) (w : World) :
  entities (snd (Connector.store controller data w)) = entities w
  \/ (controller <> EmptyString
      /\ fst (Connector.store controller data w)
         = Ok (Identifier.format "immutable" Connector.NAMESPACE
                 (Converter.bytesToHex (nextRandom w)))
      /\ entities (snd (Connector.store controller data w))
         = <[Converter.bytesToHex (nextRandom w) := writtenItem controller data w]>
             (entities w)).
Proof.
  rewrite store_outcome.
  destruct (Is.stringValue controller) eqn:Hc; [|left; reflexivity].
  destruct (outage w); [left; reflexivity|].
  right. split; [intros ->; discriminate Hc|]. split; reflexivity.
Qed.

(** An item under a key after an operation was there before, or comes
    from a successful [store]. *)
Lemma kept_or_written
    (op : Operation) (w : World) (k : string) (item : ImmutableItem.t) :
  entities (perform op w) !! k = Some item ->
  entities w !! k = Some item
  \/ exists controller data,
       op = Store controller data
       /\ controller <> EmptyString
       /\ fst (Connector.store controller data w)
          = Ok (Identifier.format "immutable" Connector.NAMESPACE k)
       /\ k = Converter.bytesToHex (nextRandom w)
       /\ item = ImmutableItem.mk k controller (Converter.bytesToBase64 data).
Proof.
  intros Hafter. destruct op as [controller data|id|controller id]; cbn [perform] in Hafter.
  - destruct (store_entities controller data w) as [Hsame|(Hc & Hok & Hins)].
    + rewrite Hsame in Hafter. left. exact Hafter.
    + rewrite Hins in Hafter.
      destruct (decide (Converter.bytesToHex (nextRandom w) = k)) as [Hk|Hk].
      * rewrite Hk, lookup_insert_eq in Hafter. injection Hafter as <-.
        right. exists controller, data. rewrite <- Hk. repeat split; assumption.
      * rewrite lookup_insert_ne in Hafter by exact Hk. left. exact Hafter.
  - rewrite get_entities in Hafter. left. exact Hafter.
  - destruct (remove_entities controller id w) as [Hsame|(rawId & _ & _ & _ & _ & _ & Hdel)].
    + rewrite Hsame in Hafter. left. exact Hafter.
    + rewrite Hdel in Hafter. apply lookup_delete_Some in Hafter as [_ Hafter].
      left. exact Hafter.
Qed.

(** X18: an entity is written by a successful [store] and by nothing
    else.  If after an operation a key holds an item it did not hold
    before, the operation was a [store] that succeeded, the key is the hex
    id it drew, and the item carries its controller and the base64 of its
    data. *)
Theorem only_store_writes
    (op : Operation) (w : World) (k : string) (item : ImmutableItem.t) :
  entities (perform op w) !! k = Some item ->
  entities w !! k <> Some item ->
  exists controller data,
    op = Store controller data
    /\ fst (Connector.store controller data w)
       = Ok (Identifier.format "immutable" Connector.NAMESPACE k)
    /\ k = Converter.bytesToHex (nextRandom w)
    /\ item = ImmutableItem.mk k controller (Converter.bytesToBase64 data).
Proof.
  intros Hafter Hbefore.
  destruct (kept_or_written op w k item Hafter)
    as [Hkept|(controller & data & Hop & _ & Hok & Hk & Hitem)]; [contradiction|].
  exists controller, data. auto.
Qed.

Lemma only_store_writes_witness :
  entities (perform (Store "alice" samplePayload) sampleWorld) !! sampleRawId
  = Some (ImmutableItem.mk sampleRawId "alice" "AQI=")
  /\ entities sampleWorld !! sampleRawId = None
  /\ exists controller data,
       Store "alice" samplePayload = Store controller data
       /\ fst (Connector.store controller data sampleWorld) = Ok sampleId.
Proof.
  split; [reflexivity|]. split; [reflexivity|].
  destruct (only_store_writes (Store "alice" samplePayload) sampleWorld sampleRawId
              (ImmutableItem.mk sampleRawId "alice" "AQI=") eq_refl)
    as (controller & data & Hop & Hok & _); [discriminate|].
  exists controller, data. split; [exact Hop|exact Hok].
Defined.

(** One operation keeps the storage well formed. *)
Lemma perform_keeps_wellFormed (op : Operation) (w : World) :
  wellFormed w -> wellFormed (perform op w).
Proof.
  intros Hw k item Hitem.
  destruct (kept_or_written op w k item Hitem)
    as [Hkept|(controller & data & _ & Hc & _ & -> & ->)]; [exact (Hw k item Hkept)|].
  unfold writtenByStore, nextRandom.
  cbn [ImmutableItem.id ImmutableItem.controller ImmutableItem.data].
  split; [reflexivity|]. split; [|split; [apply bytesToHex_is_hex|split; [exact Hc|eauto]]].
  rewrite bytesToHex_length, length_map, length_seq. reflexivity.
Qed.

(** X19: the storage stays well formed.  Whatever operations are
    performed, with whatever arguments and outcomes, on a storage whose
    entities are all as [store] writes them (an empty one, for instance),
    every entity is still keyed by its own id, a text of 64 hexadecimal
    digits, names a controller and holds the base64 of some payload. *)
Theorem run_keeps_wellFormed (ops : list Operation) (w : World) :
  wellFormed w -> wellFormed (run ops w).
Proof.
  revert w. induction ops as [|op ops IH]; intros w Hw; [exact Hw|].
  cbn [run fold_left]. fold (run ops (perform op w)).
  apply IH, perform_keeps_wellFormed, Hw.
Qed.

Lemma empty_wellFormed (w : World) : entities w = ∅ -> wellFormed w.
Proof.
  intros He k item Hitem. rewrite He, lookup_empty in Hitem. discriminate.
Qed.

Lemma run_keeps_wellFormed_witness :
  wellFormed sampleWorld
  /\ wellFormed
       (run [Store "alice" samplePayload; Get sampleId; Store "bob" [];
             Remove "bob" sampleId; Remove "alice" sampleId; Get "x"]
          sampleWorld).
Proof.
  split; [apply empty_wellFormed; reflexivity|].
  apply run_keeps_wellFormed, empty_wellFormed. reflexivity.
Defined.

(** The identifier of a key of a well-formed storage parses back to it. *)
Lemma parse_key (k : string) :
  string_forallb is_hex k = true ->
  Identifier.parse (Identifier.format "immutable" Connector.NAMESPACE k)
  = Some (Connector.NAMESPACE, k).
Proof.
  intros Hhex. apply parse_tryParseExact. eexists. split; [|split].
  - apply tryParseExact_format; try reflexivity; try discriminate.
    revert Hhex. apply forallb_weaken, is_hex_nssChar.
  - reflexivity.
  - apply namespaceSpecific_format.
Qed.

(** X20: in a well-formed, working storage, [get] on an identifier of this
    backend has two outcomes only: the payload of the item stored under
    the raw id, or the wrapped [NotFoundError] when there is none.  The
    stored data always decode, so the converter never fails. *)
Theorem get_in_wellFormed_world (id rawId : string) (w : World) :
  wellFormed w ->
  outage w = None ->
  Identifier.parse id = Some (Connector.NAMESPACE, rawId) ->
  (exists item payload,
     entities w !! rawId = Some item
     /\ ImmutableItem.data item = Converter.bytesToBase64 payload
     /\ fst (Connector.get id w) = Ok payload)
  \/ (entities w !! rawId = None
      /\ fst (Connector.get id w)
         = Err (GeneralError Connector.CLASS_NAME "gettingFailed" []
                  (Some (NotFoundError Connector.CLASS_NAME "immutableStorageNotFound")))).
Proof.
  intros Hwf Hw Hparse.
  apply parse_tryParseExact in Hparse as (u & Hu & Hm & <-).
  rewrite (get_lookup _ _ w Hu Hm), Hw. cbn [fst].
  destruct (entities w !! Urn.namespaceSpecific 1 u) as [item|] eqn:Hitem.
  - left. destruct (Hwf _ _ Hitem) as (_ & _ & _ & _ & payload & Hdata).
    exists item, payload. rewrite Hdata, base64_roundtrip. auto.
  - right. auto.
Qed.

Lemma get_in_wellFormed_world_witness :
  wellFormed storedWorld
  /\ outage storedWorld = None
  /\ Identifier.parse sampleId = Some (Connector.NAMESPACE, sampleRawId)
  /\ ((exists item payload,
         entities storedWorld !! sampleRawId = Some item
         /\ ImmutableItem.data item = Converter.bytesToBase64 payload
         /\ fst (Connector.get sampleId storedWorld) = Ok payload)
      \/ (entities storedWorld !! sampleRawId = None
          /\ fst (Connector.get sampleId storedWorld)
             = Err (GeneralError Connector.CLASS_NAME "gettingFailed" []
                      (Some (NotFoundError Connector.CLASS_NAME
                               "immutableStorageNotFound"))))).
Proof.
  assert (Hwf : wellFormed storedWorld).
  { apply (perform_keeps_wellFormed (Store "alice" samplePayload) sampleWorld),
      empty_wellFormed. reflexivity. }
  split; [exact Hwf|]. split; [reflexivity|]. split; [reflexivity|].
  exact (get_in_wellFormed_world sampleId sampleRawId storedWorld Hwf eq_refl eq_refl).
Defined.

(** X21: every stored record is addressable.  In a well-formed, working
    storage, the identifier ["immutable:entity-storage:<key>"] of any
    stored item reads its payload back with [get], and lets its recorded
    controller remove it. *)
Theorem stored_record_is_addressable
    (k : string) (item : ImmutableItem.t) (w : World) :
  wellFormed w ->
  outage w = None ->
  entities w !! k = Some item ->
  let id := Identifier.format "immutable" Connector.NAMESPACE k in
  (exists payload,
     ImmutableItem.data item = Converter.bytesToBase64 payload
     /\ fst (Connector.get id w) = Ok payload)
  /\ fst (Connector.remove (ImmutableItem.controller item) id w) = Ok tt.
Proof.
  intros Hwf Hw Hitem id.
  destruct (Hwf _ _ Hitem) as (_ & _ & Hhex & Hc & payload & Hdata).
  pose proof (parse_key k Hhex) as Hparse. fold id in Hparse.
  apply parse_tryParseExact in Hparse as (u & Hu & Hm & Hk).
  split.
  - exists payload. split; [exact Hdata|].
    rewrite (get_lookup _ _ w Hu Hm), Hk, Hw, Hitem, Hdata, base64_roundtrip. reflexivity.
  - rewrite (remove_lookup _ _ _ w Hc Hu Hm Hw), Hk, Hitem, String.eqb_refl. reflexivity.
Qed.

Lemma stored_record_is_addressable_witness :
  wellFormed storedWorld
  /\ outage storedWorld = None
  /\ entities storedWorld !! sampleRawId = Some (ImmutableItem.mk sampleRawId "alice" "AQI=")
  /\ fst (Connector.remove "alice" sampleId storedWorld) = Ok tt.
Proof.
  assert (Hwf : wellFormed storedWorld).
  { apply (perform_keeps_wellFormed (Store "alice" samplePayload) sampleWorld),
      empty_wellFormed. reflexivity. }
  split; [exact Hwf|]. split; [reflexivity|]. split; [reflexivity|].
  exact (proj2 (stored_record_is_addressable sampleRawId
                  (ImmutableItem.mk sampleRawId "alice" "AQI=") storedWorld
                  Hwf eq_refl eq_refl)).
Defined.

(** ** The REST client *)

Section ClientFacts.

Context {Body : Type}.

Implicit Types (t : @Client.Transport Body).

(** X22: what the client refuses on its own.  Empty data and empty
    identifiers are refused by a [GuardError] and nothing is sent.  A
    non-empty identifier that is not a urn is refused by [remove] alone:
    [get] checks only that the identifier is not empty, and sends it to
    the endpoint. *)
Theorem client_refusals (id : string) (options : option bool) t :
  id <> EmptyString ->
  Urn.tryParseExact id = None ->
  Client.store EmptyString t
  = (Err (GuardError Client.CLASS_NAME "guard.stringEmpty" "data"), t)
  /\ Client.get EmptyString options t
     = (Err (GuardError Client.CLASS_NAME "guard.stringEmpty" "id"), t)
  /\ Client.remove EmptyString t
     = (Err (GuardError Client.CLASS_NAME "guard.stringEmpty" "id"), t)
  /\ Client.remove id t = (Err (GuardError Client.CLASS_NAME "guard.urn" "id"), t)
  /\ Client.sent (snd (Client.get id options t))
     = Client.mkRequest "/:id" Client.GET [("id", id)]
         (option_map Client.GetOptions options) :: Client.sent t.
Proof.
  intros Hid Hu. repeat split.
  - unfold Client.remove, Client.guarded. rewrite guard_outcome, Hu.
    apply String.eqb_neq in Hid. unfold Is.stringValue. rewrite Hid. reflexivity.
  - unfold Client.get, Client.guarded, Guards.stringValue, Is.stringValue.
    apply String.eqb_neq in Hid. rewrite Hid. destruct options; reflexivity.
Qed.

(** X23: what the client accepts, it passes on once and passes back
    untouched.  For non-empty data, a non-empty identifier and an
    identifier that is a urn, [store], [get] and [remove] each send
    exactly one request ([POST /] with the data, [GET /:id] with the
    options, [DELETE /:id]) and return the endpoint's answer as it is:
    its body, or the error [fetch] threw, unwrapped. *)
Theorem client_passes_through
    (data id urn : string) (u : Urn.t) (options : option bool) t :
  data <> EmptyString ->
  id <> EmptyString ->
  Urn.tryParseExact urn = Some u ->
  let posted := Client.mkRequest "/" Client.POST [] (Some (Client.StoreRequest data)) in
  let got :=
    Client.mkRequest "/:id" Client.GET [("id", id)] (option_map Client.GetOptions options) in
  let deleted := Client.mkRequest "/:id" Client.DELETE [("id", urn)] None in
  Client.store data t
  = (Client.respond t posted, Client.mkTransport (posted :: Client.sent t) (Client.respond t))
  /\ Client.get id options t
     = (Client.respond t got, Client.mkTransport (got :: Client.sent t) (Client.respond t))
  /\ Client.remove urn t
     = (match Client.respond t deleted with
        | Ok _ => Ok tt
        | Err e => Err e
        end, Client.mkTransport (deleted :: Client.sent t) (Client.respond t)).
Proof.
  intros Hdata Hid Hu posted got deleted.
  apply String.eqb_neq in Hdata, Hid.
  unfold Client.store, Client.get, Client.remove, Client.guarded, Client.fetch,
    Guards.stringValue, Is.stringValue.
  rewrite Hdata, Hid, (tryParseExact_guard _ _ _ _ Hu). cbn [negb].
  split; [reflexivity|]. split.
  - subst got. destruct options; reflexivity.
  - fold deleted. destruct (Client.respond t deleted); reflexivity.
Qed.

End ClientFacts.

Lemma client_refusals_witness :
  let t := Client.mkTransport (Body := string) [] (fun _ => Ok "{}") in
  "not-a-valid-id" <> EmptyString
  /\ Urn.tryParseExact "not-a-valid-id" = None
  /\ Client.remove "not-a-valid-id" t
     = (Err (GuardError Client.CLASS_NAME "guard.urn" "id"), t)
  /\ Client.sent (snd (Client.get "not-a-valid-id" None t))
     = [Client.mkRequest "/:id" Client.GET [("id", "not-a-valid-id")] None].
Proof.
  cbv zeta. split; [discriminate|]. split; [reflexivity|].
  destruct (client_refusals "not-a-valid-id" None
              (Client.mkTransport (Body := string) [] (fun _ => Ok "{}")))
    as (_ & _ & _ & Hremove & Hget); [discriminate|reflexivity|].
  split; [exact Hremove|exact Hget].
Defined.

Lemma client_passes_through_witness :
  let t := Client.mkTransport (Body := string) []
             (fun _ => Err (ThrownError "FetchError" "failure")) in
  Urn.tryParseExact sampleId
  = Some (Urn.mk ["immutable"; "entity-storage"; sampleRawId])
  /\ fst (Client.store "AQI=" t) = Err (ThrownError "FetchError" "failure")
  /\ Client.sent (snd (Client.remove sampleId t))
     = [Client.mkRequest "/:id" Client.DELETE [("id", sampleId)] None].
Proof.
  cbv zeta. split; [reflexivity|].
  destruct (client_passes_through (Body := string) "AQI=" "x" sampleId
              (Urn.mk ["immutable"; "entity-storage"; sampleRawId]) None
              (Client.mkTransport (Body := string) []
             (fun _ => Err (ThrownError "FetchError" "failure"))))
    as (Hstore & _ & Hremove); [discriminate|discriminate|reflexivity|].
  rewrite Hstore, Hremove. split; reflexivity.
Defined.
